(** * BloodBridge matching engine: a shallow embedding and its properties

    This development embeds the donor-matching service of the BloodBridge
    backend (class [MatchingEngine], file services/MatchingEngine.ts) and
    proves the properties its specification states about it.

    Conventions of the embedding.
    - A JavaScript number is an exact rational ([Q]) or [NaN]; rounding of
      binary floating point is not modelled.
    - A [Date] is its [getTime()] value: milliseconds since the epoch, in [Z].
      [Date.now()] is the explicit parameter [now].
    - [Math.floor (a / b)] on integers [a] and positive [b] is [Z.div].
    - An [async] method is a function into [Promise]: resolved with a value
      or rejected with an error; [await] is the bind of that monad and
      [try { .. } catch] is [tryCatch].
    - The collections of the database, the activity log and geolib's
      [getDistance] are collaborators: variables of the section [Engine]. *)

From Stdlib Require Import ZArith QArith Qround Qminmax Qabs List String Ascii Bool.
From Stdlib Require Import Lia Lqa Permutation Sorted.
Import ListNotations.

Local Open Scope string_scope.
Local Open Scope Z_scope.
Local Open Scope list_scope.

(* ================================================================== *)
(** ** Blood groups (types/index.ts, [enum BloodGroup]) *)

Inductive BloodGroup : Type :=
| A_POSITIVE
| A_NEGATIVE
| B_POSITIVE
| B_NEGATIVE
| AB_POSITIVE
| AB_NEGATIVE
| O_POSITIVE
| O_NEGATIVE.

(** The string each member of the enum stands for at run time. *)
Definition BloodGroup_value (g : BloodGroup) : string :=
  match g with
  | A_POSITIVE => "A+"
  | A_NEGATIVE => "A-"
  | B_POSITIVE => "B+"
  | B_NEGATIVE => "B-"
  | AB_POSITIVE => "AB+"
  | AB_NEGATIVE => "AB-"
  | O_POSITIVE => "O+"
  | O_NEGATIVE => "O-"
  end%string.

(** [===] on two blood groups compares their strings. *)
Definition BloodGroup_eqb (a b : BloodGroup) : bool :=
  String.eqb (BloodGroup_value a) (BloodGroup_value b).

Definition allBloodGroups : list BloodGroup :=
  [A_POSITIVE; A_NEGATIVE; B_POSITIVE; B_NEGATIVE;
   AB_POSITIVE; AB_NEGATIVE; O_POSITIVE; O_NEGATIVE].

(** [Array.prototype.includes] on an array of blood groups. *)
Definition includes (l : list BloodGroup) (g : BloodGroup) : bool :=
  existsb (fun x => BloodGroup_eqb x g) l.

(* ================================================================== *)
(** ** The compatibility matrix

    [compatibilityMatrix] is an object literal: its entries are kept in the
    order they are written, which is the order [Object.entries] visits. *)

Definition BloodCompatibilityMatrix : Type :=
  list (BloodGroup * list BloodGroup).

Definition compatibilityMatrix : BloodCompatibilityMatrix :=
  [ (O_NEGATIVE,
      [O_NEGATIVE; O_POSITIVE; A_NEGATIVE; A_POSITIVE;
       B_NEGATIVE; B_POSITIVE; AB_NEGATIVE; AB_POSITIVE]);
    (O_POSITIVE, [O_POSITIVE; A_POSITIVE; B_POSITIVE; AB_POSITIVE]);
    (A_NEGATIVE, [A_NEGATIVE; A_POSITIVE; AB_NEGATIVE; AB_POSITIVE]);
    (A_POSITIVE, [A_POSITIVE; AB_POSITIVE]);
    (B_NEGATIVE, [B_NEGATIVE; B_POSITIVE; AB_NEGATIVE; AB_POSITIVE]);
    (B_POSITIVE, [B_POSITIVE; AB_POSITIVE]);
    (AB_NEGATIVE, [AB_NEGATIVE; AB_POSITIVE]);
    (AB_POSITIVE, [AB_POSITIVE]) ].

(** [m[key]]: the value of the first (and only) entry under [key]. *)
Fixpoint matrix_get (m : BloodCompatibilityMatrix) (key : BloodGroup)
  : option (list BloodGroup) :=
  match m with
  | [] => None
  | (k, v) :: rest => if BloodGroup_eqb k key then Some v else matrix_get rest key
  end.

(** [isBloodCompatible], over any matrix and over the engine's own. *)
Definition isBloodCompatibleIn (m : BloodCompatibilityMatrix)
  (donorBloodGroup recipientBloodGroup : BloodGroup) : bool :=
  let compatibleRecipients :=
    match matrix_get m donorBloodGroup with
    | Some recipients => recipients
    | None => []
    end in
  includes compatibleRecipients recipientBloodGroup.

Definition isBloodCompatible : BloodGroup -> BloodGroup -> bool :=
  isBloodCompatibleIn compatibilityMatrix.

(** [getCompatibleBloodGroups]: the loop over [Object.entries], pushing the
    donor group of every entry whose recipients include the given group. *)
Definition getCompatibleBloodGroupsIn (m : BloodCompatibilityMatrix)
  (recipientBloodGroup : BloodGroup) : list BloodGroup :=
  fold_left
    (fun compatibleDonors entry =>
       let '(donorGroup, recipients) := entry in
       if includes recipients recipientBloodGroup
       then compatibleDonors ++ [donorGroup]
       else compatibleDonors)
    m [].

Definition getCompatibleBloodGroups : BloodGroup -> list BloodGroup :=
  getCompatibleBloodGroupsIn compatibilityMatrix.

(** The antigens behind the matrix, used to cross-check it: a donor may
    serve a recipient when the recipient carries every antigen the donor
    does. *)
Record Antigens : Type := { antigenA : bool; antigenB : bool; rhesus : bool }.

Definition antigens (g : BloodGroup) : Antigens :=
  match g with
  | A_POSITIVE => {| antigenA := true; antigenB := false; rhesus := true |}
  | A_NEGATIVE => {| antigenA := true; antigenB := false; rhesus := false |}
  | B_POSITIVE => {| antigenA := false; antigenB := true; rhesus := true |}
  | B_NEGATIVE => {| antigenA := false; antigenB := true; rhesus := false |}
  | AB_POSITIVE => {| antigenA := true; antigenB := true; rhesus := true |}
  | AB_NEGATIVE => {| antigenA := true; antigenB := true; rhesus := false |}
  | O_POSITIVE => {| antigenA := false; antigenB := false; rhesus := true |}
  | O_NEGATIVE => {| antigenA := false; antigenB := false; rhesus := false |}
  end.

Definition antigensAccepted (donor recipient : BloodGroup) : bool :=
  implb (antigenA (antigens donor)) (antigenA (antigens recipient))
  && implb (antigenB (antigens donor)) (antigenB (antigens recipient))
  && implb (rhesus (antigens donor)) (rhesus (antigens recipient)).

(* ------------------------------------------------------------------ *)
(** *** Facts about the matrix *)

Lemma BloodGroup_eqb_eq (a b : BloodGroup) :
  BloodGroup_eqb a b = true <-> a = b.
Proof.
  split.
  - destruct a, b; intros H; try reflexivity; discriminate H.
  - intros ->. apply String.eqb_refl.
Qed.

Lemma BloodGroup_eqb_refl (a : BloodGroup) : BloodGroup_eqb a a = true.
Proof. now apply BloodGroup_eqb_eq. Qed.

Lemma allBloodGroups_complete (g : BloodGroup) : In g allBloodGroups.
Proof. destruct g; simpl; tauto. Qed.

Lemma allBloodGroups_eight :
  List.length allBloodGroups = 8%nat /\ NoDup allBloodGroups.
Proof.
  split; [reflexivity |].
  repeat (constructor; [simpl; intuition discriminate |]).
  constructor.
Qed.

Lemma includes_In (l : list BloodGroup) (g : BloodGroup) :
  includes l g = true <-> In g l.
Proof.
  unfold includes. rewrite existsb_exists. split.
  - intros (x & Hx & Heq). apply BloodGroup_eqb_eq in Heq. now subst.
  - intros H. exists g. split; [assumption | apply BloodGroup_eqb_refl].
Qed.

(** A matrix is an object: no key occurs twice. *)
Definition keysOf (m : BloodCompatibilityMatrix) : list BloodGroup := map fst m.

Lemma matrix_get_In (m : BloodCompatibilityMatrix) (k : BloodGroup)
  (v : list BloodGroup) :
  NoDup (keysOf m) -> (matrix_get m k = Some v <-> In (k, v) m).
Proof.
  induction m as [| [k0 v0] m IH]; simpl; intros Hnd.
  - split; [discriminate | contradiction].
  - inversion Hnd as [| ? ? Hnotin Hnd']; subst.
    destruct (BloodGroup_eqb k0 k) eqn:E.
    + apply BloodGroup_eqb_eq in E. subst k0. split.
      * intros [= ->]. now left.
      * intros [[= ->] | Hin]; [reflexivity |].
        exfalso. apply Hnotin. unfold keysOf.
        change k with (fst (k, v)). now apply in_map.
    + rewrite (IH Hnd'). split.
      * intros Hin. now right.
      * intros [[= -> ->] | Hin]; [| assumption].
        rewrite BloodGroup_eqb_refl in E. discriminate E.
Qed.

Lemma compatibilityMatrix_keys_NoDup : NoDup (keysOf compatibilityMatrix).
Proof.
  unfold keysOf; simpl.
  repeat (constructor; [simpl; intuition discriminate |]).
  constructor.
Qed.

Lemma isBloodCompatibleIn_listed (m : BloodCompatibilityMatrix)
  (d r : BloodGroup) :
  NoDup (keysOf m) ->
  (isBloodCompatibleIn m d r = true <->
   exists recipients, In (d, recipients) m /\ In r recipients).
Proof.
  intros Hnd. unfold isBloodCompatibleIn.
  destruct (matrix_get m d) as [recipients |] eqn:E.
  - rewrite includes_In. apply (matrix_get_In m d recipients Hnd) in E. split.
    + intros Hr. now exists recipients.
    + intros (recipients' & Hin & Hr).
      apply (matrix_get_In m d recipients' Hnd) in Hin.
      apply (matrix_get_In m d recipients Hnd) in E.
      congruence.
  - split; [discriminate |].
    intros (recipients & Hin & _).
    apply (matrix_get_In m d recipients Hnd) in Hin. congruence.
Qed.

(** The loop of [getCompatibleBloodGroups] computes a filter of the keys. *)
Lemma getCompatibleBloodGroupsIn_fold (m : BloodCompatibilityMatrix)
  (r : BloodGroup) (acc : list BloodGroup) :
  fold_left
    (fun compatibleDonors entry =>
       let '(donorGroup, recipients) := entry in
       if includes recipients r
       then compatibleDonors ++ [donorGroup]
       else compatibleDonors)
    m acc
  = acc ++ map fst (filter (fun e => includes (snd e) r) m).
Proof.
  revert acc. induction m as [| [k v] m IH]; intros acc; simpl.
  - now rewrite app_nil_r.
  - rewrite IH. destruct (includes v r); simpl.
    + now rewrite <- app_assoc.
    + reflexivity.
Qed.

Lemma getCompatibleBloodGroupsIn_filter (m : BloodCompatibilityMatrix)
  (r : BloodGroup) :
  getCompatibleBloodGroupsIn m r
  = map fst (filter (fun e => includes (snd e) r) m).
Proof. unfold getCompatibleBloodGroupsIn. now rewrite getCompatibleBloodGroupsIn_fold. Qed.

Lemma getCompatibleBloodGroupsIn_agrees (m : BloodCompatibilityMatrix)
  (d r : BloodGroup) :
  NoDup (keysOf m) ->
  (In d (getCompatibleBloodGroupsIn m r) <-> isBloodCompatibleIn m d r = true).
Proof.
  intros Hnd. rewrite getCompatibleBloodGroupsIn_filter, in_map_iff.
  rewrite (isBloodCompatibleIn_listed m d r Hnd). split.
  - intros ([k v] & Hk & Hin). simpl in Hk. subst k.
    apply filter_In in Hin. destruct Hin as [Hin Hinc]. simpl in Hinc.
    exists v. split; [assumption | now apply includes_In].
  - intros (v & Hin & Hr). exists (d, v). split; [reflexivity |].
    apply filter_In. split; [assumption | simpl; now apply includes_In].
Qed.

(** The matrix is the antigen rule, pair by pair. *)
Lemma isBloodCompatible_antigens (d r : BloodGroup) :
  isBloodCompatible d r = antigensAccepted d r.
Proof. destruct d, r; reflexivity. Qed.

Lemma isBloodCompatible_not_symmetric :
  exists d r, isBloodCompatible d r = true /\ isBloodCompatible r d = false.
Proof. exists O_NEGATIVE, AB_POSITIVE. split; reflexivity. Qed.

(** Recipient AB- is served by AB-, O-, A- and B- only. *)
Lemma AB_NEGATIVE_donors :
  getCompatibleBloodGroups AB_NEGATIVE
  = [O_NEGATIVE; A_NEGATIVE; B_NEGATIVE; AB_NEGATIVE].
Proof. reflexivity. Qed.

(** C1. The compatibility relation is exactly the matrix: donor [d] serves
    recipient [r] if and only if the matrix lists [r] among the recipients of
    [d]; O- serves all eight recipients, AB+ is served by all eight donors,
    and AB+ does not serve O-. *)
Theorem isBloodCompatible_matches_matrix :
  (forall d r : BloodGroup,
      isBloodCompatible d r = true <->
      exists recipients,
        In (d, recipients) compatibilityMatrix /\ In r recipients)
  /\ (forall r : BloodGroup, isBloodCompatible O_NEGATIVE r = true)
  /\ (forall d : BloodGroup, isBloodCompatible d AB_POSITIVE = true)
  /\ isBloodCompatible AB_POSITIVE O_NEGATIVE = false.
Proof.
  split; [| split; [| split]].
  - intros d r. apply isBloodCompatibleIn_listed.
    exact compatibilityMatrix_keys_NoDup.
  - intros r. destruct r; reflexivity.
  - intros d. destruct d; reflexivity.
  - reflexivity.
Qed.

(** C9. The two compatibility queries agree: [d] is among
    [getCompatibleBloodGroups r] if and only if [isBloodCompatible d r]. *)
Theorem getCompatibleBloodGroups_agrees (d r : BloodGroup) :
  In d (getCompatibleBloodGroups r) <-> isBloodCompatible d r = true.
Proof.
  apply getCompatibleBloodGroupsIn_agrees.
  exact compatibilityMatrix_keys_NoDup.
Qed.

(* ------------------------------------------------------------------ *)
(** *** The matrix as an order *)

(** X1. The compatibility relation is a partial order on the blood groups:
    every group serves itself, serving composes, and two distinct groups
    never serve each other. *)
Theorem isBloodCompatible_partial_order :
  (forall g, isBloodCompatible g g = true)
  /\ (forall a b c,
         isBloodCompatible a b = true -> isBloodCompatible b c = true ->
         isBloodCompatible a c = true)
  /\ (forall a b,
         isBloodCompatible a b = true -> isBloodCompatible b a = true ->
         a = b).
Proof.
  split; [| split].
  - intros g. destruct g; reflexivity.
  - intros a b c. destruct a, b; try discriminate;
      destruct c; try discriminate; reflexivity.
  - intros a b. destruct a, b; try discriminate; reflexivity.
Qed.

Lemma isBloodCompatible_refl (g : BloodGroup) : isBloodCompatible g g = true.
Proof. destruct g; reflexivity. Qed.

(** X2. The donor groups asked of the store for a recipient: no group twice,
    always the recipient's own group and O-, and a subset of the groups
    asked for any recipient the first one can serve. *)
Theorem getCompatibleBloodGroups_shape (r : BloodGroup) :
  NoDup (getCompatibleBloodGroups r)
  /\ In r (getCompatibleBloodGroups r)
  /\ In O_NEGATIVE (getCompatibleBloodGroups r)
  /\ (forall r',
         isBloodCompatible r r' = true ->
         incl (getCompatibleBloodGroups r) (getCompatibleBloodGroups r')).
Proof.
  split; [| split; [| split]].
  - destruct r; repeat (constructor; [simpl; intuition discriminate |]);
      constructor.
  - destruct r; simpl; tauto.
  - destruct r; simpl; tauto.
  - intros r' Hserve d Hd.
    apply getCompatibleBloodGroupsIn_agrees in Hd;
      [| exact compatibilityMatrix_keys_NoDup].
    apply getCompatibleBloodGroupsIn_agrees;
      [exact compatibilityMatrix_keys_NoDup |].
    revert Hd Hserve. unfold isBloodCompatible.
    destruct d, r; try discriminate; destruct r'; try discriminate;
      reflexivity.
Qed.

(* ================================================================== *)
(** ** JavaScript values

    [JSNum] is a number: a rational or NaN. The engine never divides by
    zero (see [getMaxDistanceByUrgency_nonzero] and [totalRequestsOf_pos]),
    so the infinities are left out and a zero divisor is given NaN.
    [JSValue] is what reading a property of an object literal of numbers
    gives: the number stored under the key, a member inherited from
    [Object.prototype], or [undefined]. *)

Inductive JSNum : Type :=
| Num (q : Q)
| NaN.

Inductive JSValue : Type :=
| JSNumber (q : Q)
| JSInherited (name : string)
| JSUndefined.

(** [ToNumber]: a function or an object without a numeric value is NaN. *)
Definition toNumber (v : JSValue) : JSNum :=
  match v with
  | JSNumber q => Num q
  | JSInherited _ => NaN
  | JSUndefined => NaN
  end.

Definition num_lift2 (f : Q -> Q -> Q) (a b : JSNum) : JSNum :=
  match a, b with
  | Num x, Num y => Num (f x y)
  | _, _ => NaN
  end.

Definition num_add : JSNum -> JSNum -> JSNum := num_lift2 Qplus.
Definition num_sub : JSNum -> JSNum -> JSNum := num_lift2 Qminus.
Definition num_mul : JSNum -> JSNum -> JSNum := num_lift2 Qmult.
Definition num_div (a b : JSNum) : JSNum :=
  match a, b with
  | Num x, Num y => if Qeq_bool y 0 then NaN else Num (x / y)
  | _, _ => NaN
  end.
(** [Math.max] and [Math.min] of two arguments. *)
Definition Math_max : JSNum -> JSNum -> JSNum := num_lift2 Qmax.
Definition Math_min : JSNum -> JSNum -> JSNum := num_lift2 Qmin.

(** A number that is not NaN. *)
Definition isNum (n : JSNum) : Prop := exists q, n = Num q.

Lemma isNum_Num (q : Q) : isNum (Num q).
Proof. now exists q. Qed.

Lemma isNum_lift2 (f : Q -> Q -> Q) (a b : JSNum) :
  isNum a -> isNum b -> isNum (num_lift2 f a b).
Proof. intros [x ->] [y ->]. now exists (f x y). Qed.

(** [ToBoolean]. *)
Definition truthy (v : JSValue) : bool :=
  match v with
  | JSNumber q => negb (Qeq_bool q 0)
  | JSInherited _ => true
  | JSUndefined => false
  end.

(** [v || d]. *)
Definition orElse (v d : JSValue) : JSValue := if truthy v then v else d.

(** The names every object literal inherits from [Object.prototype]; each
    of them reads as a function or an object, hence as a truthy value. *)
Definition objectPrototypeNames : list string :=
  [ "constructor"; "hasOwnProperty"; "isPrototypeOf"; "propertyIsEnumerable";
    "toLocaleString"; "toString"; "valueOf"; "__proto__";
    "__defineGetter__"; "__defineSetter__";
    "__lookupGetter__"; "__lookupSetter__" ]%string.

Definition isInheritedName (key : string) : bool :=
  existsb (String.eqb key) objectPrototypeNames.

(** An object literal whose values are numbers, in source order. *)
Definition NumberTable : Type := list (string * Q).

Fixpoint ownProperty (o : NumberTable) (key : string) : option Q :=
  match o with
  | [] => None
  | (k, v) :: rest => if String.eqb k key then Some v else ownProperty rest key
  end.

(** [o[key]]: own properties first, then the prototype. *)
Definition getProperty (o : NumberTable) (key : string) : JSValue :=
  match ownProperty o key with
  | Some q => JSNumber q
  | None => if isInheritedName key then JSInherited key else JSUndefined
  end.

(* ================================================================== *)
(** ** Urgency levels (types/index.ts, [enum UrgencyLevel]) and the three
    tables keyed by them *)

Inductive UrgencyLevel : Type := LOW | MEDIUM | HIGH | CRITICAL.

Definition UrgencyLevel_value (u : UrgencyLevel) : string :=
  match u with
  | LOW => "low"
  | MEDIUM => "medium"
  | HIGH => "high"
  | CRITICAL => "critical"
  end%string.

Definition definedUrgencyKeys : list string :=
  map UrgencyLevel_value [LOW; MEDIUM; HIGH; CRITICAL].

(** The helpers take the run-time value of their argument, as a property
    key: a string. A typed caller passes [UrgencyLevel_value u]. *)
Definition getMaxDistanceByUrgency (urgency : string) : JSValue :=
  let distances : NumberTable :=
    [ (UrgencyLevel_value CRITICAL, 100%Q);
      (UrgencyLevel_value HIGH, 50%Q);
      (UrgencyLevel_value MEDIUM, 25%Q);
      (UrgencyLevel_value LOW, 15%Q) ] in
  orElse (getProperty distances urgency) (JSNumber 25).

Definition getMaxResultsByUrgency (urgency : string) : JSValue :=
  let maxResults : NumberTable :=
    [ (UrgencyLevel_value CRITICAL, 20%Q);
      (UrgencyLevel_value HIGH, 15%Q);
      (UrgencyLevel_value MEDIUM, 10%Q);
      (UrgencyLevel_value LOW, 5%Q) ] in
  orElse (getProperty maxResults urgency) (JSNumber 10).

Definition getUrgencyMultiplier (urgency : string) : JSValue :=
  let multipliers : NumberTable :=
    [ (UrgencyLevel_value CRITICAL, 3 # 2);
      (UrgencyLevel_value HIGH, 13 # 10);
      (UrgencyLevel_value MEDIUM, 11 # 10);
      (UrgencyLevel_value LOW, 1%Q) ] in
  orElse (getProperty multipliers urgency) (JSNumber 1).

(** The values of the tables on the four levels. *)
Definition radiusKm (u : UrgencyLevel) : Q :=
  match u with CRITICAL => 100 | HIGH => 50 | MEDIUM => 25 | LOW => 15 end.

Definition topN (u : UrgencyLevel) : nat :=
  match u with CRITICAL => 20 | HIGH => 15 | MEDIUM => 10 | LOW => 5 end.

Definition multiplierOf (u : UrgencyLevel) : Q :=
  match u with
  | CRITICAL => 3 # 2 | HIGH => 13 # 10 | MEDIUM => 11 # 10 | LOW => 1
  end.

Lemma getMaxDistanceByUrgency_level (u : UrgencyLevel) :
  getMaxDistanceByUrgency (UrgencyLevel_value u) = JSNumber (radiusKm u).
Proof. destruct u; reflexivity. Qed.

Lemma getMaxResultsByUrgency_level (u : UrgencyLevel) :
  getMaxResultsByUrgency (UrgencyLevel_value u)
  = JSNumber (inject_Z (Z.of_nat (topN u))).
Proof. destruct u; reflexivity. Qed.

Lemma getUrgencyMultiplier_level (u : UrgencyLevel) :
  getUrgencyMultiplier (UrgencyLevel_value u) = JSNumber (multiplierOf u).
Proof. destruct u; reflexivity. Qed.

Lemma ownProperty_not_key (o : NumberTable) (key : string) :
  ~ In key (map fst o) -> ownProperty o key = None.
Proof.
  induction o as [| [k v] o IH]; simpl; intros Hnot; [reflexivity |].
  destruct (String.eqb k key) eqn:E.
  - apply String.eqb_eq in E. exfalso. apply Hnot. now left.
  - apply IH. intros Hin. apply Hnot. now right.
Qed.

(** Outside the four levels and outside the inherited names, the three
    helpers give their defaults. *)
Lemma urgency_defaults_own (urgency : string) :
  ~ In urgency definedUrgencyKeys ->
  isInheritedName urgency = false ->
  getMaxDistanceByUrgency urgency = JSNumber 25
  /\ getMaxResultsByUrgency urgency = JSNumber 10
  /\ getUrgencyMultiplier urgency = JSNumber 1.
Proof.
  intros Hnot Hinh.
  assert (Hkeys : forall o : NumberTable,
             map fst o = map UrgencyLevel_value [CRITICAL; HIGH; MEDIUM; LOW] ->
             getProperty o urgency = JSUndefined).
  { intros o Ho. unfold getProperty. rewrite ownProperty_not_key.
    - now rewrite Hinh.
    - rewrite Ho. intros Hin. apply Hnot. unfold definedUrgencyKeys.
      simpl in *. tauto. }
  unfold getMaxDistanceByUrgency, getMaxResultsByUrgency, getUrgencyMultiplier.
  repeat split; rewrite Hkeys; reflexivity.
Qed.

Example urgency_defaults_at_unknown_level :
  getMaxDistanceByUrgency "urgent" = JSNumber 25
  /\ getMaxResultsByUrgency "urgent" = JSNumber 10
  /\ getUrgencyMultiplier "urgent" = JSNumber 1
  /\ getMaxDistanceByUrgency "undefined" = JSNumber 25.
Proof. repeat split. Qed.

(** The radius a helper returns is never the number zero. *)
Lemma getMaxDistanceByUrgency_nonzero (urgency : string) (q : Q) :
  getMaxDistanceByUrgency urgency = JSNumber q -> Qeq_bool q 0 = false.
Proof.
  unfold getMaxDistanceByUrgency, orElse.
  destruct (truthy _) eqn:T.
  - intros H. rewrite H in T. simpl in T. now apply negb_true_iff in T.
  - intros [= <-]. reflexivity.
Qed.

(** C10, at an inherited name. An urgency value outside the four levels
    is meant to fall back to radius 25, result count 10 and multiplier 1.0;
    at the value "constructor" each table read finds the member inherited
    from [Object.prototype], which is truthy, and the helper returns it
    instead of the default. *)
Theorem urgency_fallback_missed_at_constructor :
  ~ In "constructor"%string definedUrgencyKeys
  /\ getMaxDistanceByUrgency "constructor" = JSInherited "constructor"
  /\ getMaxResultsByUrgency "constructor" = JSInherited "constructor"
  /\ getUrgencyMultiplier "constructor" = JSInherited "constructor"
  /\ toNumber (getMaxDistanceByUrgency "constructor") = NaN.
Proof.
  split.
  - unfold definedUrgencyKeys; simpl. intuition discriminate.
  - repeat split; reflexivity.
Qed.

(* ================================================================== *)
(** ** Documents (types/index.ts), reduced to the fields the engine reads *)

Inductive UserRole : Type := DONOR | VOLUNTEER | ADMIN.
Inductive UserStatus : Type := ACTIVE | BLOCKED | PENDING.

(** [[longitude, latitude]]. *)
Definition Coordinates : Type := (Q * Q)%type.

Record User : Type := {
  user_id : string;
  name : string;
  email : string;
  phone : option string;
  bloodGroup : BloodGroup;
  dateOfBirth : option Z;
  coordinates : Coordinates;
  role : UserRole;
  status : UserStatus;
  lastDonationDate : option Z
}.

Record BloodRequest : Type := {
  request_id : string;
  requestBloodGroup : BloodGroup;
  urgencyLevel : UrgencyLevel;
  requestCoordinates : Coordinates;
  district : string;
  requesterId : string
}.

Record AvailabilityStatus : Type := {
  isAvailable : bool;
  nextAvailableDate : option Z;
  restrictions : option (list string)
}.

Record ResponseMetrics : Type := {
  totalRequests : Z;
  responseRate : Q;
  averageResponseTime : Q;
  completionRate : Q
}.

Inductive ContactMethod : Type := ByPhone | ByEmail.

Record ContactInfo : Type := {
  contactPhone : string;
  contactEmail : string;
  preferredMethod : ContactMethod
}.

Record DonorMatch : Type := {
  donorId : string;
  donorName : string;
  matchBloodGroup : BloodGroup;
  distance : Q;
  matchLastDonationDate : option Z;
  responseHistory : ResponseMetrics;
  matchScore : JSNum;
  contactInfo : ContactInfo;
  availability : AvailabilityStatus
}.

(** A donor moved to other coordinates, everything else kept. *)
Definition relocate (donor : User) (c : Coordinates) : User :=
  {| user_id := user_id donor; name := name donor; email := email donor;
     phone := phone donor; bloodGroup := bloodGroup donor;
     dateOfBirth := dateOfBirth donor; coordinates := c;
     role := role donor; status := status donor;
     lastDonationDate := lastDonationDate donor |}.

(* ================================================================== *)
(** ** Days and ages *)

(** [1000 * 60 * 60 * 24]. *)
Definition msPerDay : Z := 1000 * 60 * 60 * 24.

(** [Math.floor((now - then) / (1000 * 60 * 60 * 24))]. *)
Definition daysBetween (now then_ : Z) : Z := (now - then_) / msPerDay.

(** [Math.floor((now - dob) / (1000 * 60 * 60 * 24 * 365))]. *)
Definition ageAt (now dob : Z) : Z := (now - dob) / (1000 * 60 * 60 * 24 * 365).

Definition waitRestriction : string := "Must wait 90 days between donations".
Definition ageRestriction : string := "Age must be between 18-65 years".

(** [checkAvailability]. It is [async] but awaits nothing and throws
    nothing, so it is embedded as its value. *)
Definition checkAvailability (now : Z) (donor : User) : AvailabilityStatus :=
  let tooRecent :=
    match lastDonationDate donor with
    | Some last =>
        let daysSinceLastDonation := daysBetween now last in
        if daysSinceLastDonation <? 90 then Some last else None
    | None => None
    end in
  match tooRecent with
  | Some last =>
      let nextAvailable := last + 90 * 24 * 60 * 60 * 1000 in
      {| isAvailable := false;
         nextAvailableDate := Some nextAvailable;
         restrictions := Some [waitRestriction] |}
  | None =>
      let found : list string :=
        match dateOfBirth donor with
        | Some dob =>
            let age := ageAt now dob in
            if (age <? 18) || (age >? 65) then [ageRestriction] else []
        | None => []
        end in
      {| isAvailable := Nat.eqb (List.length found) 0;
         nextAvailableDate := None;
         restrictions := if Nat.ltb 0 (List.length found) then Some found else None |}
  end.

(** The rules of the eligibility filter as the specification words them,
    for comparison with [checkAvailability]. *)
Definition donatedWithin90Days (now : Z) (donor : User) : Prop :=
  exists last, lastDonationDate donor = Some last /\ now - last < 90 * msPerDay.

Definition ageOutOfRange (now : Z) (donor : User) : Prop :=
  exists dob, dateOfBirth donor = Some dob
              /\ (ageAt now dob < 18 \/ 65 < ageAt now dob).

Lemma daysBetween_lt_90 (now last : Z) :
  daysBetween now last < 90 <-> now - last < 90 * msPerDay.
Proof.
  unfold daysBetween. assert (Hpos : 0 < msPerDay) by reflexivity. split.
  - intros H. destruct (Z_lt_le_dec (now - last) (90 * msPerDay)) as [Hlt | Hge];
      [assumption |].
    assert (90 <= (now - last) / msPerDay)
      by (apply Z.div_le_lower_bound; lia).
    lia.
  - intros H. apply Z.div_lt_upper_bound; lia.
Qed.

Lemma checkAvailability_recent (now : Z) (donor : User) (last : Z) :
  lastDonationDate donor = Some last ->
  now - last < 90 * msPerDay ->
  checkAvailability now donor
  = {| isAvailable := false;
       nextAvailableDate := Some (last + 90 * msPerDay);
       restrictions := Some [waitRestriction] |}.
Proof.
  intros Hlast Hlt. unfold checkAvailability. rewrite Hlast.
  apply daysBetween_lt_90 in Hlt. apply Z.ltb_lt in Hlt. rewrite Hlt.
  reflexivity.
Qed.

Lemma checkAvailability_not_recent (now : Z) (donor : User) :
  ~ donatedWithin90Days now donor ->
  checkAvailability now donor
  = let found :=
      match dateOfBirth donor with
      | Some dob =>
          if (ageAt now dob <? 18) || (ageAt now dob >? 65)
          then [ageRestriction] else []
      | None => []
      end in
    {| isAvailable := Nat.eqb (List.length found) 0;
       nextAvailableDate := None;
       restrictions := if Nat.ltb 0 (List.length found) then Some found else None |}.
Proof.
  intros Hnot. unfold checkAvailability.
  destruct (lastDonationDate donor) as [last |] eqn:Hlast; [| reflexivity].
  destruct (daysBetween now last <? 90) eqn:E; [| reflexivity].
  exfalso. apply Hnot. exists last. split; [assumption |].
  apply daysBetween_lt_90. now apply Z.ltb_lt.
Qed.

(** C4. The availability rules apply in order: a last donation less than
    90 days before now makes the donor unavailable until that date plus 90
    days, with the wait restriction; otherwise a date of birth whose age is
    outside 18..65 makes the donor unavailable with the age restriction;
    otherwise the donor is available with no restrictions. *)
Theorem checkAvailability_rules (now : Z) (donor : User) :
  (forall last,
      lastDonationDate donor = Some last ->
      now - last < 90 * msPerDay ->
      checkAvailability now donor
      = {| isAvailable := false;
           nextAvailableDate := Some (last + 90 * msPerDay);
           restrictions := Some [waitRestriction] |})
  /\ (~ donatedWithin90Days now donor ->
      ageOutOfRange now donor ->
      checkAvailability now donor
      = {| isAvailable := false;
           nextAvailableDate := None;
           restrictions := Some [ageRestriction] |})
  /\ (~ donatedWithin90Days now donor ->
      ~ ageOutOfRange now donor ->
      checkAvailability now donor
      = {| isAvailable := true;
           nextAvailableDate := None;
           restrictions := None |}).
Proof.
  split; [| split].
  - intros last Hlast Hlt. now apply checkAvailability_recent.
  - intros Hnot (dob & Hdob & Hage).
    rewrite (checkAvailability_not_recent now donor Hnot), Hdob.
    assert (E : (ageAt now dob <? 18) || (ageAt now dob >? 65) = true).
    { apply orb_true_iff. destruct Hage as [H | H].
      - left. now apply Z.ltb_lt.
      - right. apply Z.gtb_lt. exact H. }
    rewrite E. reflexivity.
  - intros Hnot Hage.
    rewrite (checkAvailability_not_recent now donor Hnot).
    destruct (dateOfBirth donor) as [dob |] eqn:Hdob; [| reflexivity].
    assert (E : (ageAt now dob <? 18) || (ageAt now dob >? 65) = false).
    { apply orb_false_iff. split.
      - apply Z.ltb_ge. apply Z.nlt_ge. intros H. apply Hage.
        exists dob. split; [exact Hdob | now left].
      - rewrite Z.gtb_ltb. apply Z.ltb_ge. apply Z.nlt_ge. intros H.
        apply Hage. exists dob. split; [exact Hdob | now right]. }
    rewrite E. reflexivity.
Qed.

(* ------------------------------------------------------------------ *)
(** *** What an availability verdict always satisfies *)

(** [1000 * 60 * 60 * 24 * 365]: the year of [checkAvailability]. *)
Definition msPerYear : Z := 1000 * 60 * 60 * 24 * 365.

Lemma ageAt_lt (now dob k : Z) :
  ageAt now dob < k <-> now - dob < k * msPerYear.
Proof.
  unfold ageAt. change (1000 * 60 * 60 * 24 * 365) with msPerYear.
  assert (Hpos : 0 < msPerYear) by reflexivity. split.
  - intros H.
    destruct (Z_lt_le_dec (now - dob) (k * msPerYear)) as [Hlt | Hge];
      [assumption |].
    assert (k <= (now - dob) / msPerYear)
      by (apply Z.div_le_lower_bound; lia).
    lia.
  - intros H. apply Z.div_lt_upper_bound; lia.
Qed.

(** X3. The verdict is available exactly when it carries no restriction; a
    next available date comes only with the wait restriction, lies strictly
    after now, and is the last donation plus 90 days. *)
Theorem checkAvailability_consistent (now : Z) (donor : User) :
  (isAvailable (checkAvailability now donor) = true
   <-> restrictions (checkAvailability now donor) = None)
  /\ (forall next,
         nextAvailableDate (checkAvailability now donor) = Some next ->
         now < next
         /\ isAvailable (checkAvailability now donor) = false
         /\ restrictions (checkAvailability now donor) = Some [waitRestriction]
         /\ lastDonationDate donor = Some (next - 90 * msPerDay)).
Proof.
  unfold checkAvailability.
  destruct (lastDonationDate donor) as [last |] eqn:Hlast.
  - destruct (daysBetween now last <? 90) eqn:E.
    + apply Z.ltb_lt, daysBetween_lt_90 in E. simpl. split.
      * split; discriminate.
      * intros next [= <-]. repeat split; try reflexivity.
        -- unfold msPerDay in E. lia.
        -- f_equal. unfold msPerDay. lia.
    + simpl. split; [| discriminate].
      destruct (dateOfBirth donor) as [dob |];
        [destruct ((ageAt now dob <? 18) || (ageAt now dob >? 65)) |];
        simpl; split; congruence.
  - simpl. split; [| discriminate].
    destruct (dateOfBirth donor) as [dob |];
      [destruct ((ageAt now dob <? 18) || (ageAt now dob >? 65)) |];
      simpl; split; congruence.
Qed.

(** X4. The age rule counts years of 365 days: a donor past the 90-day gap,
    with a date of birth, is available exactly from 18 * 365 days of age
    up to, but not including, 66 * 365 days. *)
Theorem checkAvailability_age_window (now : Z) (donor : User) (dob : Z) :
  dateOfBirth donor = Some dob ->
  ~ donatedWithin90Days now donor ->
  (isAvailable (checkAvailability now donor) = true
   <-> 18 * msPerYear <= now - dob < 66 * msPerYear).
Proof.
  intros Hdob Hgap.
  rewrite (checkAvailability_not_recent now donor Hgap), Hdob.
  pose proof (ageAt_lt now dob 18) as H18.
  pose proof (ageAt_lt now dob 66) as H66.
  destruct (ageAt now dob <? 18) eqn:Elow.
  - apply Z.ltb_lt in Elow. cbn [orb List.length Nat.eqb isAvailable].
    split; [discriminate |].
    intros [Hge _]. apply H18 in Elow. lia.
  - apply Z.ltb_ge in Elow.
    destruct (ageAt now dob >? 65) eqn:Ehigh;
      cbn [orb List.length Nat.eqb isAvailable].
    + rewrite Z.gtb_ltb in Ehigh. apply Z.ltb_lt in Ehigh.
      split; [discriminate |]. intros [_ Hlt]. apply H66 in Hlt. lia.
    + rewrite Z.gtb_ltb in Ehigh. apply Z.ltb_ge in Ehigh.
      split; [intros _ | reflexivity]. split.
      * destruct (Z_lt_le_dec (now - dob) (18 * msPerYear)) as [Hlt | Hge];
          [| assumption].
        apply H18 in Hlt. lia.
      * apply H66. lia.
Qed.

(* ================================================================== *)
(** ** Promises *)

Definition JSError : Type := string.

Inductive Promise (A : Type) : Type :=
| Resolved (a : A)
| Rejected (e : JSError).

Arguments Resolved {A} a.
Arguments Rejected {A} e.

(** [const x = await p; k x]. *)
Definition await {A B : Type} (p : Promise A) (k : A -> Promise B) : Promise B :=
  match p with
  | Resolved a => k a
  | Rejected e => Rejected e
  end.

(** [try { body } catch (error) { handler error }]. *)
Definition tryCatch {A : Type} (body : Promise A)
  (handler : JSError -> Promise A) : Promise A :=
  match body with
  | Resolved a => Resolved a
  | Rejected e => handler e
  end.

Notation "x <- p ;; k" := (await p (fun x => k))
  (at level 61, p at next level, right associativity).

(* ================================================================== *)
(** ** What the collaborators exchange with the engine *)

(** geolib's point: [{ latitude, longitude }]. *)
Record GeoPoint : Type := { latitude : Q; longitude : Q }.

(** An entry of the [activityLog] collection. [details] may be missing in
    a stored document, and so may [details.responseTime]. *)
Record ActivityDetails : Type := { responseTime : option Q }.

Record ActivityLogEntry : Type := {
  entryUserId : string;
  action : string;
  details : option ActivityDetails
}.

(** [{ userId, action: { $in: actions } }]; a single action is a list of
    one. *)
Record ActivityQuery : Type := {
  queryUserId : string;
  queryActions : list string
}.

(** The filter [findCompatibleDonors] sends to the [user] collection. *)
Record UserQuery : Type := {
  queryRoles : list UserRole;
  queryStatus : UserStatus;
  queryBloodGroups : list BloodGroup;
  queryExcludedIds : option (list string);
  queryNear : option (Coordinates * JSNum)
}.

Record MatchingCriteria : Type := {
  criteriaBloodGroup : BloodGroup;
  criteriaCoordinates : Coordinates;
  criteriaMaxDistance : option JSValue;
  criteriaUrgencyLevel : UrgencyLevel;
  excludeUserIds : option (list string)
}.

(** The two reads of [getResponseHistory]. *)
Definition responsesQuery (donorId : string) : ActivityQuery :=
  {| queryUserId := donorId;
     queryActions :=
       ["notification_responded"; "donation_confirmed"; "donation_declined"] |}.

Definition notificationsQuery (donorId : string) : ActivityQuery :=
  {| queryUserId := donorId; queryActions := ["notification_received"] |}.

(** The fallback of [getResponseHistory]. *)
Definition defaultResponseHistory : ResponseMetrics :=
  {| totalRequests := 0;
     responseRate := 1 # 2;
     averageResponseTime := 30;
     completionRate := 3 # 10 |}.

(** [responses.filter(r => r.details.responseTime)
              .map(r => r.details.responseTime)]: reading [responseTime] of
    a missing [details] throws a TypeError; a missing or zero response time
    is falsy and filtered out. *)
Fixpoint responseTimesOf (responses : list ActivityLogEntry)
  : Promise (list Q) :=
  match responses with
  | [] => Resolved []
  | r :: rest =>
      match details r with
      | None => Rejected "TypeError: Cannot read properties of undefined"
      | Some d =>
          times <- responseTimesOf rest ;;
          Resolved
            match responseTime d with
            | Some t => if Qeq_bool t 0 then times else t :: times
            | None => times
            end
      end
  end.

(** [notifications.length || 1]. *)
Definition totalRequestsOf (notifications : list ActivityLogEntry) : Z :=
  let n := Z.of_nat (List.length notifications) in
  if n =? 0 then 1 else n.

Lemma totalRequestsOf_pos (notifications : list ActivityLogEntry) :
  0 < totalRequestsOf notifications.
Proof.
  unfold totalRequestsOf.
  destruct (Z.of_nat (List.length notifications) =? 0) eqn:E; [lia |].
  apply Z.eqb_neq in E. lia.
Qed.

(** [Array.prototype.sort] with a comparator: a stable sort, in which a
    comparator result of NaN counts as zero. Written as a stable insertion
    sort; [cmp x y <= 0] keeps [x] before [y]. *)
Section Sort.
Context {A : Type} (cmp : A -> A -> JSNum).

Definition keepsBefore (x y : A) : bool :=
  match cmp x y with
  | Num v => Qle_bool v 0
  | NaN => true
  end.

Fixpoint insertSorted (x : A) (l : list A) : list A :=
  match l with
  | [] => [x]
  | y :: rest =>
      if keepsBefore x y then x :: y :: rest else y :: insertSorted x rest
  end.

Definition sortWith (l : list A) : list A := fold_right insertSorted [] l.

Lemma insertSorted_perm (x : A) (l : list A) :
  Permutation (x :: l) (insertSorted x l).
Proof.
  induction l as [| y l IH]; simpl; [apply Permutation_refl |].
  destruct (keepsBefore x y); [apply Permutation_refl |].
  eapply Permutation_trans; [apply perm_swap |].
  now apply perm_skip.
Qed.

Lemma sortWith_perm (l : list A) : Permutation l (sortWith l).
Proof.
  induction l as [| x l IH]; simpl; [apply perm_nil |].
  eapply Permutation_trans; [apply perm_skip, IH |].
  apply insertSorted_perm.
Qed.

Lemma sortWith_length (l : list A) : List.length (sortWith l) = List.length l.
Proof. symmetry. apply Permutation_length, sortWith_perm. Qed.

(** The comparator [(a, b) => score b - score a] on elements whose scores
    are numbers sorts them in descending order of score. *)
Variable score : A -> JSNum.
Hypothesis cmp_score : forall x y, cmp x y = num_sub (score y) (score x).

Definition descending (a b : A) : Prop :=
  exists x y, score a = Num x /\ score b = Num y /\ (y <= x)%Q.

Lemma keepsBefore_descending (a b : A) :
  isNum (score a) -> isNum (score b) ->
  if keepsBefore a b then descending a b else descending b a.
Proof.
  intros [x Hx] [y Hy]. unfold keepsBefore, descending.
  rewrite cmp_score, Hx, Hy. simpl.
  destruct (Qle_bool (y - x) 0) eqn:E.
  - exists x, y. repeat split; try assumption.
    apply Qle_bool_iff in E. lra.
  - exists y, x. repeat split; try assumption.
    destruct (Qlt_le_dec 0 (y - x)) as [Hlt | Hle]; [lra |].
    apply Qle_bool_iff in Hle. congruence.
Qed.

Lemma descending_trans (a b c : A) :
  descending a b -> descending b c -> descending a c.
Proof.
  intros (x & y & Hx & Hy & Hxy) (y' & z & Hy' & Hz & Hyz).
  exists x, z. repeat split; try assumption.
  rewrite Hy in Hy'. injection Hy' as <-. lra.
Qed.

Lemma insertSorted_descending (x : A) (l : list A) :
  isNum (score x) -> Forall (fun a => isNum (score a)) l ->
  StronglySorted descending l ->
  StronglySorted descending (insertSorted x l).
Proof.
  intros Hx Hall Hsorted. induction Hsorted as [| y l Hl IH Hy]; simpl.
  - constructor; [constructor | constructor].
  - inversion Hall as [| ? ? Hynum Hall']; subst.
    pose proof (keepsBefore_descending x y Hx Hynum) as Hk.
    destruct (keepsBefore x y).
    + constructor; [now constructor |].
      constructor; [assumption |].
      eapply Forall_impl; [| exact Hy].
      intros z Hz. now apply descending_trans with y.
    + constructor; [now apply IH |].
      eapply Permutation_Forall; [apply insertSorted_perm |].
      now constructor.
Qed.

Lemma sortWith_descending (l : list A) :
  Forall (fun a => isNum (score a)) l ->
  StronglySorted descending (sortWith l).
Proof.
  induction 1 as [| x l Hx Hall IH]; simpl; [constructor |].
  apply insertSorted_descending; [assumption | | assumption].
  eapply Permutation_Forall; [apply sortWith_perm | assumption].
Qed.
End Sort.

Lemma In_firstn {A : Type} (n : nat) (l : list A) (x : A) :
  In x (firstn n l) -> In x l.
Proof.
  intros H. rewrite <- (firstn_skipn n l). apply in_or_app. now left.
Qed.

Lemma StronglySorted_firstn {A : Type} (R : A -> A -> Prop) (n : nat)
  (l : list A) :
  StronglySorted R l -> StronglySorted R (firstn n l).
Proof.
  intros H. revert n. induction H as [| x l Hl IH Hx]; intros [| n]; simpl;
    try constructor.
  - apply IH.
  - apply Forall_forall. intros y Hy.
    apply (proj1 (Forall_forall _ _) Hx). eapply In_firstn; exact Hy.
Qed.

(** [ToIntegerOrInfinity]: truncation toward zero, NaN to zero. *)
Definition toInteger (n : JSNum) : Z :=
  match n with
  | Num (Qmake num den) => Z.quot num (Zpos den)
  | NaN => 0
  end.

(** [l.slice(0, end)]. *)
Definition sliceTo {A : Type} (l : list A) (end_ : JSValue) : list A :=
  let len := Z.of_nat (List.length l) in
  let relativeEnd := toInteger (toNumber end_) in
  let final :=
    if relativeEnd <? 0 then Z.max (len + relativeEnd) 0
    else Z.min relativeEnd len in
  firstn (Z.to_nat final) l.

Record BulkNotification : Type := {
  userIds : list string;
  title : string;
  message : string;
  dataRequestId : string;
  dataDistance : option Q;
  priority : string;
  actionUrl : string
}.

(** [enum RequestStatus]; its first member shares its name with a member of
    [UserStatus], hence the module. *)
Module RequestStatus.
Inductive t : Type :=
| PENDING | MATCHED | CONFIRMED | INPROGRESS | COMPLETED | VERIFIED | CANCELLED.
End RequestStatus.

(** A document of the [request] collection as [getMatchingMetrics] reads
    it. *)
Record RequestDocument : Type := {
  documentStatus : RequestStatus.t;
  matchedDonors : list DonorMatch
}.

(** The filter of [getMatchingMetrics]: [createdAt >= createdAtGte], with
    [matchedDonors] present and different from the empty array. *)
Record RecentMatchesQuery : Type := { createdAtGte : Z }.

Record MatchingMetrics : Type := {
  totalMatches : Z;
  averageDistance : JSNum;
  metricsAverageResponseTime : Q;
  successRate : Q;
  lastUpdated : Z
}.

(* ================================================================== *)
(** ** The engine *)

Section Engine.

(** geolib's [getDistance]: metres, rounded to a whole number. *)
Variable getDistance : GeoPoint -> GeoPoint -> Z.
(** [userCollection.find(query)]: the documents the cursor delivers, in
    its order, or the failure of the read. *)
Variable userCollection_find : UserQuery -> Promise (list User).
(** [activityLogCollection.find(query).toArray()]. *)
Variable activityLog_find : ActivityQuery -> Promise (list ActivityLogEntry).
(** [requestCollection.findOne({ _id: new ObjectId(requestId) })]; it
    rejects when [requestId] is no ObjectId. *)
Variable requestCollection_findOne : string -> Promise (option BloodRequest).
(** [requestCollection.updateOne] setting [matchedDonors] and
    [updatedAt]. *)
Variable requestCollection_updateOne :
  string -> list DonorMatch -> Z -> Promise unit.
Variable sendUrgentAlert : string -> list string -> Promise unit.
Variable sendBulkNotifications : BulkNotification -> Promise unit.

Definition calculateDistance (coord1 coord2 : Coordinates) : Q :=
  (inject_Z
     (getDistance
        {| latitude := snd coord1; longitude := fst coord1 |}
        {| latitude := snd coord2; longitude := fst coord2 |})
   / 1000)%Q.

Definition getResponseHistory (donorId : string) : Promise ResponseMetrics :=
  tryCatch
    (responses <- activityLog_find (responsesQuery donorId) ;;
     notifications <- activityLog_find (notificationsQuery donorId) ;;
     let totalRequests := totalRequestsOf notifications in
     let totalResponses := Z.of_nat (List.length responses) in
     let confirmedDonations :=
       Z.of_nat
         (List.length
            (filter (fun r => String.eqb (action r) "donation_confirmed")
               responses)) in
     responseTimes <- responseTimesOf responses ;;
     let averageResponseTime : Q :=
       if Nat.ltb 0 (List.length responseTimes)
       then (fold_left Qplus responseTimes 0
             / inject_Z (Z.of_nat (List.length responseTimes)))%Q
       else 0%Q in
     Resolved
       {| totalRequests := totalRequests;
          responseRate := inject_Z totalResponses / inject_Z totalRequests;
          averageResponseTime := averageResponseTime / (1000 * 60);
          completionRate :=
            inject_Z confirmedDonations / inject_Z totalRequests |})
    (fun error => Resolved defaultResponseHistory).

Definition calculateMatchScore (now : Z) (donor : User)
  (request : BloodRequest) : Promise JSNum :=
  let score := Num 0 in
  if isBloodCompatible (bloodGroup donor) (requestBloodGroup request)
  then
    let score := num_add score (Num 100) in
    let score :=
      if BloodGroup_eqb (bloodGroup donor) (requestBloodGroup request)
      then num_add score (Num 20) else score in
    let distance :=
      calculateDistance (requestCoordinates request) (coordinates donor) in
    let maxDistance :=
      getMaxDistanceByUrgency (UrgencyLevel_value (urgencyLevel request)) in
    let distanceScore :=
      Math_max (Num 0)
        (num_sub (Num 50)
           (num_mul (num_div (Num distance) (toNumber maxDistance))
              (Num 50))) in
    let score := num_add score distanceScore in
    let availability := checkAvailability now donor in
    let score :=
      if isAvailable availability then num_add score (Num 30)
      else
        match nextAvailableDate availability with
        | Some next =>
            let daysUntilAvailable := (next - now) / msPerDay in
            num_add score
              (Math_max (Num 0) (Num (inject_Z (30 - daysUntilAvailable))))
        | None => score
        end in
    responseHistory <- getResponseHistory (user_id donor) ;;
    let score := num_add score (Num (responseRate responseHistory * 20)) in
    let score :=
      match lastDonationDate donor with
      | Some last =>
          let daysSinceLastDonation := daysBetween now last in
          if daysSinceLastDonation <? 90 then num_sub score (Num 50)
          else if daysSinceLastDonation >? 365 then num_sub score (Num 10)
          else score
      | None => score
      end in
    let urgencyMultiplier :=
      getUrgencyMultiplier (UrgencyLevel_value (urgencyLevel request)) in
    let score := num_mul score (toNumber urgencyMultiplier) in
    Resolved (Math_max (Num 0) (Math_min (Num 300) score))
  else Resolved (Num 0).

(** The filter on donation eligibility in [findCompatibleDonors]. *)
Definition eligibleByGap (now : Z) (donor : User) : bool :=
  match lastDonationDate donor with
  | None => true
  | Some last =>
      let daysSinceLastDonation := daysBetween now last in
      90 <=? daysSinceLastDonation
  end.

(** The query [findCompatibleDonors] builds from its criteria. *)
Definition queryOf (criteria : MatchingCriteria) : UserQuery :=
  let compatibleBloodGroups :=
    getCompatibleBloodGroups (criteriaBloodGroup criteria) in
  {| queryRoles := [DONOR; VOLUNTEER];
     queryStatus := ACTIVE;
     queryBloodGroups := compatibleBloodGroups;
     queryExcludedIds :=
       match excludeUserIds criteria with
       | Some ids => if Nat.ltb 0 (List.length ids) then Some ids else None
       | None => None
       end;
     queryNear :=
       match criteriaMaxDistance criteria with
       | Some maxDistance =>
           if truthy maxDistance
           then Some (criteriaCoordinates criteria,
                      num_mul (toNumber maxDistance) (Num 1000))
           else None
       | None => None
       end |}.

Definition findCompatibleDonors (now : Z) (criteria : MatchingCriteria)
  : Promise (list User) :=
  let query := queryOf criteria in
  donors <-
    (found <- userCollection_find query ;; Resolved (firstn 100 found)) ;;
  let eligibleDonors := filter (eligibleByGap now) donors in
  Resolved eligibleDonors.

(** The criteria [findOptimalDonors] builds from a request. *)
Definition criteriaOf (request : BloodRequest) : MatchingCriteria :=
  {| criteriaBloodGroup := requestBloodGroup request;
     criteriaCoordinates := requestCoordinates request;
     criteriaMaxDistance :=
       Some (getMaxDistanceByUrgency
               (UrgencyLevel_value (urgencyLevel request)));
     criteriaUrgencyLevel := urgencyLevel request;
     excludeUserIds := Some [requesterId request] |}.

(** One turn of the loop of [findOptimalDonors]. *)
Definition matchDonor (now : Z) (request : BloodRequest) (donor : User)
  : Promise DonorMatch :=
  matchScore <- calculateMatchScore now donor request ;;
  let distance :=
    calculateDistance (requestCoordinates request) (coordinates donor) in
  responseHistory <- getResponseHistory (user_id donor) ;;
  Resolved
    {| donorId := user_id donor;
       donorName := name donor;
       matchBloodGroup := bloodGroup donor;
       distance := distance;
       matchLastDonationDate := lastDonationDate donor;
       responseHistory := responseHistory;
       matchScore := matchScore;
       contactInfo :=
         {| contactPhone :=
              match phone donor with
              | Some p => if String.eqb p "" then "" else p
              | None => ""
              end;
            contactEmail := email donor;
            preferredMethod :=
              match phone donor with
              | Some p => if String.eqb p "" then ByEmail else ByPhone
              | None => ByEmail
              end |};
       availability := checkAvailability now donor |}.

Fixpoint matchDonors (now : Z) (request : BloodRequest) (donors : list User)
  : Promise (list DonorMatch) :=
  match donors with
  | [] => Resolved []
  | donor :: rest =>
      donorMatch <- matchDonor now request donor ;;
      donorMatches <- matchDonors now request rest ;;
      Resolved (donorMatch :: donorMatches)
  end.

(** The comparator of the sort: [(a, b) => b.matchScore - a.matchScore]. *)
Definition byScoreDescending (a b : DonorMatch) : JSNum :=
  num_sub (matchScore b) (matchScore a).

Definition findOptimalDonors (now : Z) (request : BloodRequest)
  : Promise (list DonorMatch) :=
  tryCatch
    (let criteria := criteriaOf request in
     compatibleDonors <- findCompatibleDonors now criteria ;;
     donorMatches <- matchDonors now request compatibleDonors ;;
     let sorted := sortWith byScoreDescending donorMatches in
     let maxResults :=
       getMaxResultsByUrgency (UrgencyLevel_value (urgencyLevel request)) in
     Resolved (sliceTo sorted maxResults))
    (fun error => Resolved []).

Definition notifyMatchedDonors (request : BloodRequest)
  (matches : list DonorMatch) : Promise unit :=
  tryCatch
    (let donorIds := map donorId matches in
     match urgencyLevel request with
     | CRITICAL => sendUrgentAlert (request_id request) donorIds
     | _ =>
         sendBulkNotifications
           {| userIds := donorIds;
              title :=
                "Blood Donation Request - "
                ++ BloodGroup_value (requestBloodGroup request);
              message :=
                "A " ++ UrgencyLevel_value (urgencyLevel request)
                ++ " blood request needs your help in "
                ++ district request ++ ".";
              dataRequestId := request_id request;
              dataDistance := option_map distance (hd_error matches);
              priority :=
                match urgencyLevel request with
                | HIGH => "high"
                | _ => "medium"
                end;
              actionUrl := "/donation-request/" ++ request_id request |}
     end)
    (fun error => Resolved tt).

Definition expandSearchRadius (now : Z) (requestId : string) (newRadius : Q)
  : Promise (list DonorMatch) :=
  tryCatch
    (found <- requestCollection_findOne requestId ;;
     match found with
     | None => Rejected "Request not found"
     | Some request =>
         let criteria : MatchingCriteria :=
           {| criteriaBloodGroup := requestBloodGroup request;
              criteriaCoordinates := requestCoordinates request;
              criteriaMaxDistance := Some (JSNumber newRadius);
              criteriaUrgencyLevel := urgencyLevel request;
              excludeUserIds := Some [requesterId request] |} in
         newMatches <- findOptimalDonors now request ;;
         _ <- requestCollection_updateOne requestId newMatches now ;;
         _ <- notifyMatchedDonors request newMatches ;;
         Resolved newMatches
     end)
    (fun error => Resolved []).

(** Radius expansion as the specification words it, for comparison with
    [expandSearchRadius]: candidate search and scoring run again, the
    search with the radius the caller supplies. *)
Definition expandSearch_spec (now : Z) (request : BloodRequest)
  (newRadiusKm : Q) : Promise (list DonorMatch) :=
  let criteria : MatchingCriteria :=
    {| criteriaBloodGroup := requestBloodGroup request;
       criteriaCoordinates := requestCoordinates request;
       criteriaMaxDistance := Some (JSNumber newRadiusKm);
       criteriaUrgencyLevel := urgencyLevel request;
       excludeUserIds := Some [requesterId request] |} in
  candidates <- findCompatibleDonors now criteria ;;
  donorMatches <- matchDonors now request candidates ;;
  Resolved
    (sliceTo (sortWith byScoreDescending donorMatches)
       (getMaxResultsByUrgency (UrgencyLevel_value (urgencyLevel request)))).

(* ---------------------------------------------------------------- *)
(** *** Numbers stay numbers *)

Lemma isNum_div_radius (a : JSNum) (u : UrgencyLevel) :
  isNum a -> isNum (num_div a (Num (radiusKm u))).
Proof.
  intros [x ->]. exists (x / radiusKm u)%Q. destruct u; reflexivity.
Qed.

Lemma getResponseHistory_resolves (donorId : string) :
  exists history, getResponseHistory donorId = Resolved history.
Proof.
  unfold getResponseHistory.
  destruct (activityLog_find _) as [responses | e]; simpl;
    [| now eexists].
  destruct (activityLog_find _) as [notifications | e]; simpl;
    [| now eexists].
  destruct (responseTimesOf responses) as [times | e]; simpl; now eexists.
Qed.

Lemma clamp_bounds (x : Q) :
  (0 <= Qmax 0 (Qmin 300 x) /\ Qmax 0 (Qmin 300 x) <= 300)%Q.
Proof.
  split.
  - apply Q.le_max_l.
  - apply Q.max_lub; [discriminate | apply Q.le_min_l].
Qed.

Lemma clamp_mono (x y : Q) :
  (x <= y -> Qmax 0 (Qmin 300 x) <= Qmax 0 (Qmin 300 y))%Q.
Proof.
  intros H. apply Q.max_le_compat_l. now apply Q.min_le_compat_l.
Qed.

Ltac num_closed :=
  repeat
    match goal with
    | |- isNum (Num _) => apply isNum_Num
    | |- isNum (num_div _ (Num (radiusKm _))) => apply isNum_div_radius
    | |- isNum (num_add _ _) => apply isNum_lift2
    | |- isNum (num_sub _ _) => apply isNum_lift2
    | |- isNum (num_mul _ _) => apply isNum_lift2
    | |- isNum (Math_max _ _) => apply isNum_lift2
    | |- isNum (Math_min _ _) => apply isNum_lift2
    | |- isNum (if ?c then _ else _) => destruct c
    | |- isNum (match ?x with Some _ => _ | None => _ end) => destruct x
    end.

(** A compatible pair is scored by clamping some number to 0..300. *)
Lemma calculateMatchScore_compatible (now : Z) (donor : User)
  (request : BloodRequest) :
  isBloodCompatible (bloodGroup donor) (requestBloodGroup request) = true ->
  exists raw : Q,
    calculateMatchScore now donor request
    = Resolved (Num (Qmax 0 (Qmin 300 raw))).
Proof.
  intros Hcompat. unfold calculateMatchScore. rewrite Hcompat.
  rewrite getMaxDistanceByUrgency_level, getUrgencyMultiplier_level.
  destruct (getResponseHistory_resolves (user_id donor)) as [h ->].
  cbv zeta. unfold await, toNumber.
  match goal with
  | |- exists raw, Resolved (Math_max _ (Math_min _ ?s)) = _ =>
      assert (Hs : isNum s) by num_closed;
      destruct Hs as [raw ->]
  end.
  now exists raw.
Qed.

(** C3. The match score of every donor against every request is a number
    between 0 and 300, and it is exactly 0 when the donor's blood group is
    not compatible with the requested one. *)
Theorem calculateMatchScore_bounds (now : Z) (donor : User)
  (request : BloodRequest) :
  (exists score : Q,
      calculateMatchScore now donor request = Resolved (Num score)
      /\ (0 <= score)%Q /\ (score <= 300)%Q)
  /\ (isBloodCompatible (bloodGroup donor) (requestBloodGroup request) = false ->
      calculateMatchScore now donor request = Resolved (Num 0)).
Proof.
  split.
  - destruct (isBloodCompatible (bloodGroup donor) (requestBloodGroup request))
      eqn:Hcompat.
    + destruct (calculateMatchScore_compatible now donor request Hcompat)
        as [raw ->].
      eexists. split; [reflexivity | apply clamp_bounds].
    + exists 0%Q. unfold calculateMatchScore. rewrite Hcompat.
      repeat split; discriminate.
  - intros Hcompat. unfold calculateMatchScore. now rewrite Hcompat.
Qed.

Lemma distanceScore_mono (r near far : Q) :
  (0 < r -> near <= far ->
   Qmax 0 (50 - far / r * 50) <= Qmax 0 (50 - near / r * 50))%Q.
Proof.
  intros Hr Hle. apply Q.max_le_compat_l.
  assert (Hdiv : (near / r <= far / r)%Q).
  { unfold Qdiv. apply Qmult_le_compat_r; [assumption |].
    apply Qlt_le_weak. now apply Qinv_lt_0_compat. }
  lra.
Qed.

Lemma radiusKm_pos (u : UrgencyLevel) : (0 < radiusKm u)%Q.
Proof. destruct u; reflexivity. Qed.

Lemma multiplierOf_pos (u : UrgencyLevel) : (0 <= multiplierOf u)%Q.
Proof. destruct u; discriminate. Qed.

Lemma num_div_radius (x : Q) (u : UrgencyLevel) :
  num_div (Num x) (Num (radiusKm u)) = Num (x / radiusKm u).
Proof. destruct u; reflexivity. Qed.

(** C8. Of two candidates that differ in their coordinates only, scored
    against the same request at the same instant, the one nearer to the
    request scores at least as much as the farther one. *)
Theorem calculateMatchScore_monotone_in_distance (now : Z) (donor : User)
  (request : BloodRequest) (nearer farther : Coordinates) :
  (calculateDistance (requestCoordinates request) nearer
   <= calculateDistance (requestCoordinates request) farther)%Q ->
  exists scoreNear scoreFar : Q,
    calculateMatchScore now (relocate donor nearer) request
    = Resolved (Num scoreNear)
    /\ calculateMatchScore now (relocate donor farther) request
       = Resolved (Num scoreFar)
    /\ (scoreFar <= scoreNear)%Q.
Proof.
  intros Hle. unfold calculateMatchScore.
  change (checkAvailability now (relocate donor nearer))
    with (checkAvailability now donor).
  change (checkAvailability now (relocate donor farther))
    with (checkAvailability now donor).
  cbn [relocate bloodGroup user_id lastDonationDate coordinates].
  destruct (isBloodCompatible (bloodGroup donor) (requestBloodGroup request)).
  2: { exists 0%Q, 0%Q. repeat split. discriminate. }
  rewrite getMaxDistanceByUrgency_level, getUrgencyMultiplier_level.
  destruct (getResponseHistory_resolves (user_id donor)) as [h ->].
  cbv zeta. unfold await, toNumber. rewrite !num_div_radius.
  set (dNear := calculateDistance (requestCoordinates request) nearer) in *.
  set (dFar := calculateDistance (requestCoordinates request) farther) in *.
  pose proof (distanceScore_mono (radiusKm (urgencyLevel request)) dNear dFar
                (radiusKm_pos _) Hle) as Hdist.
  destruct (BloodGroup_eqb _ _);
    destruct (checkAvailability now donor) as [available next restr];
    cbn [isAvailable nextAvailableDate];
    destruct available; try destruct next as [next |];
    destruct (lastDonationDate donor) as [last |];
    try (destruct (daysBetween now last <? 90);
         [| destruct (daysBetween now last >? 365)]);
    unfold Math_max, Math_min, num_add, num_sub, num_mul, num_lift2;
    (do 2 eexists; split; [reflexivity | split; [reflexivity |]]);
    apply clamp_mono;
    (apply Qmult_le_compat_r; [| apply multiplierOf_pos]);
    unfold Qminus;
    repeat (apply Qplus_le_compat; [| apply Qle_refl]);
    (apply Qplus_le_compat; [apply Qle_refl | exact Hdist]).
Qed.

(* ---------------------------------------------------------------- *)
(** *** Candidate search *)

Lemma eligibleByGap_spec (now : Z) (donor : User) :
  eligibleByGap now donor = true <-> ~ donatedWithin90Days now donor.
Proof.
  unfold eligibleByGap, donatedWithin90Days.
  destruct (lastDonationDate donor) as [last |].
  - rewrite Z.leb_le. split.
    + intros Hge (last' & [= <-] & Hlt).
      apply daysBetween_lt_90 in Hlt. lia.
    + intros Hnot. apply Z.nlt_ge. intros Hlt. apply Hnot.
      exists last. split; [reflexivity | now apply daysBetween_lt_90].
  - split; [| reflexivity]. intros _ (last & Hlast & _). discriminate Hlast.
Qed.

Lemma findCompatibleDonors_found (now : Z) (criteria : MatchingCriteria)
  (found : list User) :
  userCollection_find (queryOf criteria) = Resolved found ->
  findCompatibleDonors now criteria
  = Resolved (filter (eligibleByGap now) (firstn 100 found)).
Proof. intros H. unfold findCompatibleDonors. now rewrite H. Qed.

Lemma findCompatibleDonors_failed (now : Z) (criteria : MatchingCriteria)
  (e : JSError) :
  userCollection_find (queryOf criteria) = Rejected e ->
  findCompatibleDonors now criteria = Rejected e.
Proof. intros H. unfold findCompatibleDonors. now rewrite H. Qed.

(** C7. Candidate search takes its radius from the urgency of the request
    (critical 100 km, high 50 km, medium 25 km, low 15 km, sent to the
    store in metres), keeps the first 100 documents the query delivers,
    and then drops the candidates whose last donation is less than 90
    days old; the date of birth plays no part. *)
Theorem findCompatibleDonors_radius_cap_gap (now : Z) (request : BloodRequest) :
  (getMaxDistanceByUrgency (UrgencyLevel_value CRITICAL) = JSNumber 100
   /\ getMaxDistanceByUrgency (UrgencyLevel_value HIGH) = JSNumber 50
   /\ getMaxDistanceByUrgency (UrgencyLevel_value MEDIUM) = JSNumber 25
   /\ getMaxDistanceByUrgency (UrgencyLevel_value LOW) = JSNumber 15)
  /\ criteriaMaxDistance (criteriaOf request)
     = Some (getMaxDistanceByUrgency
               (UrgencyLevel_value (urgencyLevel request)))
  /\ queryNear (queryOf (criteriaOf request))
     = Some (requestCoordinates request,
             Num (radiusKm (urgencyLevel request) * 1000))
  /\ (forall (criteria : MatchingCriteria) (found : list User),
         userCollection_find (queryOf criteria) = Resolved found ->
         exists candidates,
           findCompatibleDonors now criteria = Resolved candidates
           /\ candidates = filter (eligibleByGap now) (firstn 100 found)
           /\ (List.length candidates <= 100)%nat
           /\ (forall donor,
                  In donor candidates <->
                  In donor (firstn 100 found)
                  /\ ~ donatedWithin90Days now donor)).
Proof.
  split; [repeat split |]. split; [reflexivity |]. split.
  - unfold queryOf, criteriaOf; simpl.
    rewrite getMaxDistanceByUrgency_level.
    destruct (urgencyLevel request); reflexivity.
  - intros criteria found Hfound.
    exists (filter (eligibleByGap now) (firstn 100 found)).
    split; [now apply findCompatibleDonors_found |].
    split; [reflexivity |]. split.
    + eapply Nat.le_trans; [apply filter_length_le | apply firstn_le_length].
    + intros donor. rewrite filter_In, eligibleByGap_spec. reflexivity.
Qed.

(* ---------------------------------------------------------------- *)
(** *** Ranking *)

(** Descending order of match score, between matches with numeric
    scores. *)
Definition byScore : DonorMatch -> DonorMatch -> Prop :=
  descending matchScore.

Lemma calculateMatchScore_resolves (now : Z) (donor : User)
  (request : BloodRequest) :
  exists score : Q,
    calculateMatchScore now donor request = Resolved (Num score).
Proof.
  destruct (isBloodCompatible (bloodGroup donor) (requestBloodGroup request))
    eqn:Hcompat.
  - destruct (calculateMatchScore_compatible now donor request Hcompat)
      as [raw ->].
    now eexists.
  - exists 0%Q. unfold calculateMatchScore. now rewrite Hcompat.
Qed.

Lemma matchDonor_resolves (now : Z) (request : BloodRequest) (donor : User) :
  exists donorMatch,
    matchDonor now request donor = Resolved donorMatch
    /\ donorId donorMatch = user_id donor
    /\ isNum (matchScore donorMatch).
Proof.
  unfold matchDonor.
  destruct (calculateMatchScore_resolves now donor request) as [score ->].
  destruct (getResponseHistory_resolves (user_id donor)) as [h ->].
  simpl. eexists. split; [reflexivity |]. split; [reflexivity |].
  apply isNum_Num.
Qed.

Lemma matchDonors_resolves (now : Z) (request : BloodRequest)
  (donors : list User) :
  exists donorMatches,
    matchDonors now request donors = Resolved donorMatches
    /\ map donorId donorMatches = map user_id donors
    /\ Forall (fun m => isNum (matchScore m)) donorMatches.
Proof.
  induction donors as [| donor rest (ms & Hms & Hids & Hnum)]; simpl.
  - exists []. repeat split. constructor.
  - destruct (matchDonor_resolves now request donor)
      as (m & Hm & Hid & Hscore).
    rewrite Hm, Hms. simpl. exists (m :: ms).
    split; [reflexivity |]. split.
    + simpl. now rewrite Hid, Hids.
    + now constructor.
Qed.

Lemma sliceTo_topN {A : Type} (l : list A) (u : UrgencyLevel) :
  sliceTo l (getMaxResultsByUrgency (UrgencyLevel_value u))
  = firstn (topN u) l.
Proof.
  rewrite getMaxResultsByUrgency_level. unfold sliceTo, toNumber, toInteger.
  unfold inject_Z. rewrite Z.quot_1_r.
  destruct (Z.of_nat (topN u) <? 0) eqn:E; [apply Z.ltb_lt in E; lia |].
  destruct (Nat.le_gt_cases (topN u) (List.length l)) as [Hle | Hgt].
  - rewrite Z.min_l by lia. now rewrite Nat2Z.id.
  - rewrite Z.min_r by lia. rewrite Nat2Z.id.
    rewrite firstn_all. symmetry. apply firstn_all2. lia.
Qed.

Lemma findOptimalDonors_ranked (now : Z) (request : BloodRequest)
  (qualifying : list User) :
  findCompatibleDonors now (criteriaOf request) = Resolved qualifying ->
  exists ranked,
    findOptimalDonors now request
    = Resolved (firstn (topN (urgencyLevel request)) ranked)
    /\ Permutation (map donorId ranked) (map user_id qualifying)
    /\ StronglySorted byScore ranked.
Proof.
  intros Hq. unfold findOptimalDonors. cbv zeta. rewrite Hq.
  destruct (matchDonors_resolves now request qualifying)
    as (ms & Hms & Hids & Hnum).
  unfold await at 1. rewrite Hms. unfold await, tryCatch.
  rewrite sliceTo_topN.
  exists (sortWith byScoreDescending ms). split; [reflexivity |]. split.
  - rewrite <- Hids. apply Permutation_map, Permutation_sym, sortWith_perm.
  - apply sortWith_descending; [reflexivity | assumption].
Qed.

Lemma findOptimalDonors_swallows (now : Z) (request : BloodRequest)
  (e : JSError) :
  findCompatibleDonors now (criteriaOf request) = Rejected e ->
  findOptimalDonors now request = Resolved [].
Proof. intros H. unfold findOptimalDonors. cbv zeta. now rewrite H. Qed.

(** C6. A matching run returns its matches in descending order of match
    score, cut to the first N of the ranking, with N = 20, 15, 10, 5 for
    critical, high, medium and low urgency; a critical run with 50
    qualifying candidates returns exactly 20. *)
Theorem findOptimalDonors_sorted_topN (now : Z) (request : BloodRequest) :
  (getMaxResultsByUrgency (UrgencyLevel_value CRITICAL) = JSNumber 20
   /\ getMaxResultsByUrgency (UrgencyLevel_value HIGH) = JSNumber 15
   /\ getMaxResultsByUrgency (UrgencyLevel_value MEDIUM) = JSNumber 10
   /\ getMaxResultsByUrgency (UrgencyLevel_value LOW) = JSNumber 5)
  /\ exists result,
      findOptimalDonors now request = Resolved result
      /\ StronglySorted byScore result
      /\ (List.length result <= topN (urgencyLevel request))%nat
      /\ (forall qualifying,
             findCompatibleDonors now (criteriaOf request)
             = Resolved qualifying ->
             (exists ranked,
                 Permutation (map donorId ranked) (map user_id qualifying)
                 /\ StronglySorted byScore ranked
                 /\ result = firstn (topN (urgencyLevel request)) ranked)
             /\ List.length result
                = Nat.min (topN (urgencyLevel request))
                    (List.length qualifying)
             /\ (urgencyLevel request = CRITICAL ->
                 List.length qualifying = 50%nat ->
                 List.length result = 20%nat)).
Proof.
  split; [repeat split |].
  destruct (findCompatibleDonors now (criteriaOf request))
    as [qualifying | e] eqn:Hq.
  - destruct (findOptimalDonors_ranked now request qualifying Hq)
      as (ranked & Hres & Hperm & Hsorted).
    exists (firstn (topN (urgencyLevel request)) ranked).
    split; [assumption |]. split; [now apply StronglySorted_firstn |].
    split; [apply firstn_le_length |].
    intros qualifying' [= <-].
    assert (Hlen : List.length (firstn (topN (urgencyLevel request)) ranked)
                   = Nat.min (topN (urgencyLevel request))
                       (List.length qualifying)).
    { rewrite length_firstn. f_equal.
      apply Permutation_length in Hperm. now rewrite !length_map in Hperm. }
    split; [now exists ranked |]. split; [assumption |].
    intros Hcritical H50. rewrite Hlen, Hcritical, H50. reflexivity.
  - exists []. split; [now apply findOptimalDonors_swallows with e |].
    split; [constructor |]. split; [simpl; lia |].
    intros qualifying' Hq'. discriminate Hq'.
Qed.

(* ---------------------------------------------------------------- *)
(** *** Failures of the reads *)

Lemma getResponseHistory_responses_failed (donorId : string) (e : JSError) :
  activityLog_find (responsesQuery donorId) = Rejected e ->
  getResponseHistory donorId = Resolved defaultResponseHistory.
Proof. intros H. unfold getResponseHistory. now rewrite H. Qed.

Lemma getResponseHistory_notifications_failed (donorId : string)
  (e : JSError) :
  activityLog_find (notificationsQuery donorId) = Rejected e ->
  getResponseHistory donorId = Resolved defaultResponseHistory.
Proof.
  intros H. unfold getResponseHistory. rewrite H.
  now destruct (activityLog_find (responsesQuery donorId)).
Qed.

Lemma findOptimalDonors_resolves (now : Z) (request : BloodRequest) :
  exists result, findOptimalDonors now request = Resolved result.
Proof.
  destruct (findCompatibleDonors now (criteriaOf request))
    as [qualifying | e] eqn:Hq.
  - destruct (findOptimalDonors_ranked now request qualifying Hq)
      as (ranked & Hres & _).
    eexists. exact Hres.
  - exists []. now apply findOptimalDonors_swallows with e.
Qed.

(** C5, as the engine has it. No failure of a read reaches the caller of
    a matching run. A failed read of the donor population is caught and
    the run returns the empty list; a failed read of the response history
    is caught and replaced by the defaults: response rate 0.5, average
    response time 30 minutes, completion rate 0.3. *)
Theorem read_failures_are_caught (now : Z) (request : BloodRequest) :
  (forall e,
      userCollection_find (queryOf (criteriaOf request)) = Rejected e ->
      findOptimalDonors now request = Resolved [])
  /\ (forall donorId e,
         activityLog_find (responsesQuery donorId) = Rejected e
         \/ activityLog_find (notificationsQuery donorId) = Rejected e ->
         getResponseHistory donorId = Resolved defaultResponseHistory)
  /\ (responseRate defaultResponseHistory = 1 # 2
      /\ averageResponseTime defaultResponseHistory = 30
      /\ completionRate defaultResponseHistory = 3 # 10)%Q
  /\ exists result, findOptimalDonors now request = Resolved result.
Proof.
  split; [| split; [| split]].
  - intros e He. apply findOptimalDonors_swallows with e.
    now apply findCompatibleDonors_failed.
  - intros donorId e [H | H].
    + now apply getResponseHistory_responses_failed with e.
    + now apply getResponseHistory_notifications_failed with e.
  - repeat split.
  - apply findOptimalDonors_resolves.
Qed.

(* ---------------------------------------------------------------- *)
(** *** Radius expansion *)

(** The radius handed to [expandSearchRadius] has no part in its
    result: the criteria built from it are never used. *)
Lemma expandSearchRadius_any_radius (now : Z) (requestId : string)
  (radius radius' : Q) :
  expandSearchRadius now requestId radius
  = expandSearchRadius now requestId radius'.
Proof. reflexivity. Qed.

(** The search [expandSearchRadius] runs is the one of the first run. *)
Lemma expandSearchRadius_searches_as_before (now : Z) (requestId : string)
  (newRadius : Q) (request : BloodRequest) (matches : list DonorMatch) :
  requestCollection_findOne requestId = Resolved (Some request) ->
  expandSearchRadius now requestId newRadius = Resolved matches ->
  matches = [] \/ findOptimalDonors now request = Resolved matches.
Proof.
  unfold expandSearchRadius. intros ->. cbv zeta. simpl await at 1.
  destruct (findOptimalDonors now request) as [found | e]; simpl.
  - destruct (requestCollection_updateOne requestId found now); simpl.
    + destruct (notifyMatchedDonors request found); simpl.
      * intros [= <-]. now right.
      * intros [= <-]. now left.
    + intros [= <-]. now left.
  - intros [= <-]. now left.
Qed.

(* ---------------------------------------------------------------- *)
(** *** The response history *)

Lemma responseTimesOf_missing_details (responses : list ActivityLogEntry)
  (r : ActivityLogEntry) :
  In r responses -> details r = None ->
  exists e, responseTimesOf responses = Rejected e.
Proof.
  intros Hin Hnone. induction responses as [| r0 rest IH]; [contradiction |].
  simpl. destruct (details r0) as [d |] eqn:Hd; [| now eexists].
  destruct Hin as [-> | Hin]; [congruence |].
  destruct (IH Hin) as [e ->]. now eexists.
Qed.

Lemma count_le_length {A : Type} (f : A -> bool) (l : list A) :
  Z.of_nat (List.length (filter f l)) <= Z.of_nat (List.length l).
Proof. apply Nat2Z.inj_le, filter_length_le. Qed.

Lemma Qdiv_le_same_denominator (a b t : Z) :
  a <= b -> 0 < t -> (inject_Z a / inject_Z t <= inject_Z b / inject_Z t)%Q.
Proof.
  intros Hab Ht. unfold Qdiv. apply Qmult_le_compat_r.
  - now rewrite <- Zle_Qle.
  - apply Qlt_le_weak, Qinv_lt_0_compat.
    change (inject_Z 0 < inject_Z t)%Q. now rewrite <- Zlt_Qlt.
Qed.

Lemma Qdiv_nonneg (a t : Z) :
  0 <= a -> 0 < t -> (0 <= inject_Z a / inject_Z t)%Q.
Proof.
  intros Ha Ht. unfold Qdiv. apply Qmult_le_0_compat.
  - change (inject_Z 0 <= inject_Z a)%Q. now rewrite <- Zle_Qle.
  - apply Qlt_le_weak, Qinv_lt_0_compat.
    change (inject_Z 0 < inject_Z t)%Q. now rewrite <- Zlt_Qlt.
Qed.

(** What any call of [getResponseHistory] returns. *)
Lemma getResponseHistory_outcome (donorId : string) :
  exists history,
    getResponseHistory donorId = Resolved history
    /\ (0 <= completionRate history)%Q
    /\ (completionRate history <= responseRate history)%Q
    /\ (history = defaultResponseHistory \/ 1 <= totalRequests history).
Proof.
  unfold getResponseHistory.
  assert (Hdefault :
    (0 <= completionRate defaultResponseHistory)%Q
    /\ (completionRate defaultResponseHistory
        <= responseRate defaultResponseHistory)%Q
    /\ (defaultResponseHistory = defaultResponseHistory
        \/ 1 <= totalRequests defaultResponseHistory)).
  { repeat split; try discriminate. now left. }
  destruct (activityLog_find (responsesQuery donorId)) as [responses | e];
    simpl; [| now eexists].
  destruct (activityLog_find (notificationsQuery donorId))
    as [notifications | e]; simpl; [| now eexists].
  destruct (responseTimesOf responses) as [times | e]; simpl;
    [| now eexists].
  pose proof (totalRequestsOf_pos notifications) as Hpos.
  eexists. split; [reflexivity |]. simpl. split; [| split].
  - apply Qdiv_nonneg; [lia | assumption].
  - apply Qdiv_le_same_denominator; [apply count_le_length | assumption].
  - right. lia.
Qed.

(** X6. The history returned is never a failure; its completion rate lies
    between 0 and its response rate; and it counts zero requests exactly
    when it is the fallback. *)
Theorem getResponseHistory_invariants (donorId : string) :
  exists history,
    getResponseHistory donorId = Resolved history
    /\ (0 <= completionRate history)%Q
    /\ (completionRate history <= responseRate history)%Q
    /\ 0 <= totalRequests history
    /\ (totalRequests history = 0 <-> history = defaultResponseHistory).
Proof.
  destruct (getResponseHistory_outcome donorId)
    as (history & Hres & Hzero & Hle & Hcases).
  exists history. repeat split; try assumption.
  - destruct Hcases as [-> | H]; [discriminate | lia].
  - intros Hnone. destruct Hcases as [-> | H]; [reflexivity | lia].
  - intros ->. reflexivity.
Qed.

(** X7. One stored response without [details] is enough for the whole history
    of the donor to be replaced by the fallback. *)
Theorem getResponseHistory_malformed_entry (donorId : string)
  (responses : list ActivityLogEntry) (r : ActivityLogEntry) :
  activityLog_find (responsesQuery donorId) = Resolved responses ->
  In r responses ->
  details r = None ->
  getResponseHistory donorId = Resolved defaultResponseHistory.
Proof.
  intros Hread Hin Hnone. unfold getResponseHistory. rewrite Hread. simpl.
  destruct (activityLog_find (notificationsQuery donorId))
    as [notifications | e]; simpl; [| reflexivity].
  destruct (responseTimesOf_missing_details responses r Hin Hnone) as [e ->].
  reflexivity.
Qed.

(** X8. A donor with no response on record has response rate, completion rate
    and average response time 0, and as many requests as notifications
    received, counted as 1 when there is none. *)
Theorem getResponseHistory_no_responses (donorId : string)
  (notifications : list ActivityLogEntry) :
  activityLog_find (responsesQuery donorId) = Resolved [] ->
  activityLog_find (notificationsQuery donorId) = Resolved notifications ->
  exists history,
    getResponseHistory donorId = Resolved history
    /\ totalRequests history = Z.max 1 (Z.of_nat (List.length notifications))
    /\ (responseRate history == 0)%Q
    /\ (completionRate history == 0)%Q
    /\ (averageResponseTime history == 0)%Q.
Proof.
  intros Hresponses Hnotifications. unfold getResponseHistory.
  rewrite Hresponses. simpl. rewrite Hnotifications. simpl.
  eexists. split; [reflexivity |]. simpl. split.
  - unfold totalRequestsOf.
    destruct (Z.of_nat (List.length notifications) =? 0) eqn:E.
    + apply Z.eqb_eq in E. lia.
    + apply Z.eqb_neq in E. lia.
  - repeat split; unfold Qdiv; rewrite ?Qmult_0_l; reflexivity.
Qed.


(* ---------------------------------------------------------------- *)
(** *** More on the score *)

(** A request with another urgency level, a donor with another blood
    group, a donor with another last donation: everything else kept. *)
Definition withUrgency (request : BloodRequest) (u : UrgencyLevel)
  : BloodRequest :=
  {| request_id := request_id request;
     requestBloodGroup := requestBloodGroup request;
     urgencyLevel := u;
     requestCoordinates := requestCoordinates request;
     district := district request;
     requesterId := requesterId request |}.

Definition withBloodGroup (donor : User) (g : BloodGroup) : User :=
  {| user_id := user_id donor; name := name donor; email := email donor;
     phone := phone donor; bloodGroup := g;
     dateOfBirth := dateOfBirth donor; coordinates := coordinates donor;
     role := role donor; status := status donor;
     lastDonationDate := lastDonationDate donor |}.

Definition withLastDonation (donor : User) (last : option Z) : User :=
  {| user_id := user_id donor; name := name donor; email := email donor;
     phone := phone donor; bloodGroup := bloodGroup donor;
     dateOfBirth := dateOfBirth donor; coordinates := coordinates donor;
     role := role donor; status := status donor;
     lastDonationDate := last |}.

(** Low, medium, high, critical. *)
Definition urgencyRank (u : UrgencyLevel) : nat :=
  match u with LOW => 0 | MEDIUM => 1 | HIGH => 2 | CRITICAL => 3 end.

Lemma clamp_lower (k x : Q) :
  (0 <= k -> k <= 300 -> k <= x -> k <= Qmax 0 (Qmin 300 x))%Q.
Proof.
  intros H0 H300 Hx. eapply Qle_trans; [| apply Q.le_max_r].
  now apply Q.min_glb.
Qed.

(** Name every [Qmax 0 _] of the goal and keep that it is not negative. *)
Ltac name_maxima :=
  repeat
    match goal with
    | |- context [Qmax 0 ?x] =>
        let t := fresh "t" in
        let Ht := fresh "Ht" in
        pose proof (Q.le_max_l 0 x) as Ht;
        set (t := Qmax 0 x) in *; clearbody t
    end.

Lemma calculateMatchScore_compatible_at_least_50 (now : Z) (donor : User)
  (request : BloodRequest) :
  isBloodCompatible (bloodGroup donor) (requestBloodGroup request) = true ->
  exists score : Q,
    calculateMatchScore now donor request = Resolved (Num score)
    /\ (50 <= score)%Q.
Proof.
  intros Hcompat. unfold calculateMatchScore. rewrite Hcompat.
  rewrite getMaxDistanceByUrgency_level, getUrgencyMultiplier_level.
  destruct (getResponseHistory_outcome (user_id donor))
    as (h & -> & Hzero & Hle & _).
  assert (Hrate : (0 <= responseRate h)%Q) by (eapply Qle_trans; eassumption).
  cbv zeta. unfold await, toNumber. rewrite !num_div_radius.
  destruct (BloodGroup_eqb _ _);
    destruct (checkAvailability now donor) as [available next restr];
    cbn [isAvailable nextAvailableDate];
    destruct available; try destruct next as [next |];
    destruct (lastDonationDate donor) as [last |];
    try (destruct (daysBetween now last <? 90);
         [| destruct (daysBetween now last >? 365)]);
    unfold Math_max, Math_min, num_add, num_sub, num_mul, num_lift2;
    (eexists; split; [reflexivity |]);
    (apply clamp_lower; [discriminate | discriminate |]);
    name_maxima;
    destruct (urgencyLevel request); unfold multiplierOf; lra.
Qed.

(** X9. The score is 0 for an incompatible pair only: a compatible donor scores
    at least 50, whatever the distance, the history and the dates. *)
Theorem calculateMatchScore_zero_iff_incompatible (now : Z) (donor : User)
  (request : BloodRequest) :
  exists score : Q,
    calculateMatchScore now donor request = Resolved (Num score)
    /\ (isBloodCompatible (bloodGroup donor) (requestBloodGroup request) = true
        -> (50 <= score)%Q)
    /\ ((score == 0)%Q
        <-> isBloodCompatible (bloodGroup donor) (requestBloodGroup request)
            = false).
Proof.
  destruct (isBloodCompatible (bloodGroup donor) (requestBloodGroup request))
    eqn:Hcompat.
  - destruct (calculateMatchScore_compatible_at_least_50 now donor request
                Hcompat) as (score & Hscore & Hfifty).
    exists score. split; [assumption |]. split; [now intros _ |].
    split; [intros Hzero; lra | discriminate].
  - exists 0%Q. unfold calculateMatchScore. rewrite Hcompat.
    split; [reflexivity |]. split; [discriminate |].
    split; [reflexivity | intros _; reflexivity].
Qed.

Lemma distanceScore_radius_mono (d : Q) (u v : UrgencyLevel) :
  (urgencyRank u <= urgencyRank v)%nat ->
  (0 <= d ->
   Qmax 0 (50 - d / radiusKm u * 50) <= Qmax 0 (50 - d / radiusKm v * 50))%Q.
Proof.
  intros Hrank Hd. apply Q.max_le_compat_l.
  assert (Hdiv : (d / radiusKm v <= d / radiusKm u)%Q).
  { unfold Qdiv. rewrite !(Qmult_comm d).
    apply Qmult_le_compat_r; [| exact Hd].
    destruct u, v; simpl in Hrank; try lia; discriminate. }
  set (a := (d / radiusKm v)%Q) in *. set (b := (d / radiusKm u)%Q) in *.
  lra.
Qed.

(** X10. Raising the urgency of a request never lowers the score of a donor:
    both the radius of the distance term and the multiplier grow with the
    level. *)
Theorem calculateMatchScore_monotone_in_urgency (now : Z) (donor : User)
  (request : BloodRequest) (u v : UrgencyLevel) :
  (urgencyRank u <= urgencyRank v)%nat ->
  (0 <= calculateDistance (requestCoordinates request) (coordinates donor))%Q ->
  exists scoreLow scoreHigh : Q,
    calculateMatchScore now donor (withUrgency request u)
    = Resolved (Num scoreLow)
    /\ calculateMatchScore now donor (withUrgency request v)
       = Resolved (Num scoreHigh)
    /\ (scoreLow <= scoreHigh)%Q.
Proof.
  intros Hrank Hdistance. unfold calculateMatchScore.
  cbn [withUrgency requestBloodGroup urgencyLevel requestCoordinates].
  destruct (isBloodCompatible (bloodGroup donor) (requestBloodGroup request)).
  2: { exists 0%Q, 0%Q. repeat split. discriminate. }
  rewrite !getMaxDistanceByUrgency_level, !getUrgencyMultiplier_level.
  destruct (getResponseHistory_outcome (user_id donor))
    as (h & -> & Hzero & Hle & _).
  assert (Hrate : (0 <= responseRate h)%Q) by (eapply Qle_trans; eassumption).
  cbv zeta. unfold await, toNumber. rewrite !num_div_radius.
  set (d := calculateDistance (requestCoordinates request) (coordinates donor))
    in *.
  pose proof (distanceScore_radius_mono d u v Hrank Hdistance) as Hradius.
  destruct (BloodGroup_eqb _ _);
    destruct (checkAvailability now donor) as [available next restr];
    cbn [isAvailable nextAvailableDate];
    destruct available; try destruct next as [next |];
    destruct (lastDonationDate donor) as [last |];
    try (destruct (daysBetween now last <? 90);
         [| destruct (daysBetween now last >? 365)]);
    unfold Math_max, Math_min, num_add, num_sub, num_mul, num_lift2;
    (do 2 eexists; split; [reflexivity | split; [reflexivity |]]);
    apply clamp_mono;
    name_maxima;
    destruct u, v; simpl in Hrank; try lia; unfold multiplierOf; lra.
Qed.

(** X11. A donor of exactly the requested blood group scores at least as much as
    the same donor with any other group. *)
Theorem calculateMatchScore_exact_group_is_best (now : Z) (donor : User)
  (request : BloodRequest) (g : BloodGroup) :
  exists scoreExact scoreOther : Q,
    calculateMatchScore now
      (withBloodGroup donor (requestBloodGroup request)) request
    = Resolved (Num scoreExact)
    /\ calculateMatchScore now (withBloodGroup donor g) request
       = Resolved (Num scoreOther)
    /\ (scoreOther <= scoreExact)%Q.
Proof.
  unfold calculateMatchScore.
  change (checkAvailability now
            (withBloodGroup donor (requestBloodGroup request)))
    with (checkAvailability now donor).
  change (checkAvailability now (withBloodGroup donor g))
    with (checkAvailability now donor).
  cbn [withBloodGroup bloodGroup user_id lastDonationDate coordinates].
  rewrite isBloodCompatible_refl, BloodGroup_eqb_refl.
  rewrite !getMaxDistanceByUrgency_level, !getUrgencyMultiplier_level.
  destruct (getResponseHistory_outcome (user_id donor))
    as (h & -> & Hzero & Hle & _).
  cbv zeta. unfold await, toNumber. rewrite !num_div_radius.
  pose proof (multiplierOf_pos (urgencyLevel request)) as Hmult.
  destruct (isBloodCompatible g (requestBloodGroup request));
    [destruct (BloodGroup_eqb g (requestBloodGroup request)) |];
    destruct (checkAvailability now donor) as [available next restr];
    cbn [isAvailable nextAvailableDate];
    destruct available; try destruct next as [next |];
    destruct (lastDonationDate donor) as [last |];
    try (destruct (daysBetween now last <? 90);
         [| destruct (daysBetween now last >? 365)]);
    unfold Math_max, Math_min, num_add, num_sub, num_mul, num_lift2;
    (do 2 eexists; split; [reflexivity | split; [reflexivity |]]);
    try apply Q.le_max_l;
    apply clamp_mono;
    (apply Qmult_le_compat_r; [| exact Hmult]);
    name_maxima; lra.
Qed.

Lemma daysUntil_nonneg (now last : Z) :
  now - last < 90 * msPerDay ->
  0 <= (last + 90 * 24 * 60 * 60 * 1000 - now) / msPerDay.
Proof.
  intros H. apply Z.div_pos; [| reflexivity]. unfold msPerDay in H. lia.
Qed.

(** X12. A donation on record never raises the score: the same donor without a
    last donation date scores at least as much. *)
Theorem calculateMatchScore_donation_never_raises (now : Z) (donor : User)
  (request : BloodRequest) (last : Z) :
  exists scoreWith scoreWithout : Q,
    calculateMatchScore now (withLastDonation donor (Some last)) request
    = Resolved (Num scoreWith)
    /\ calculateMatchScore now (withLastDonation donor None) request
       = Resolved (Num scoreWithout)
    /\ (scoreWith <= scoreWithout)%Q.
Proof.
  unfold calculateMatchScore, checkAvailability.
  cbn [withLastDonation bloodGroup user_id lastDonationDate coordinates
         dateOfBirth].
  destruct (isBloodCompatible (bloodGroup donor) (requestBloodGroup request)).
  2: { exists 0%Q, 0%Q. repeat split. discriminate. }
  rewrite !getMaxDistanceByUrgency_level, !getUrgencyMultiplier_level.
  destruct (getResponseHistory_outcome (user_id donor))
    as (h & -> & Hzero & Hle & _).
  cbv zeta. unfold await, toNumber. rewrite !num_div_radius.
  pose proof (multiplierOf_pos (urgencyLevel request)) as Hmult.
  destruct (daysBetween now last <? 90) eqn:Egap.
  - apply Z.ltb_lt, daysBetween_lt_90 in Egap.
    cbn [isAvailable nextAvailableDate].
    pose proof (daysUntil_nonneg now last Egap) as Hwait.
    set (wait := (last + 90 * 24 * 60 * 60 * 1000 - now) / msPerDay) in *.
    assert (Hterm : (Qmax 0 (inject_Z (30 - wait)) <= 30)%Q).
    { apply Q.max_lub; [discriminate |].
      change 30%Q with (inject_Z 30). rewrite <- Zle_Qle. lia. }
    destruct (BloodGroup_eqb _ _);
      (destruct (dateOfBirth donor) as [dob |];
       [destruct ((ageAt now dob <? 18) || (ageAt now dob >? 65)) |]);
      cbn [List.length Nat.eqb];
      unfold Math_max, Math_min, num_add, num_sub, num_mul, num_lift2;
      (do 2 eexists; split; [reflexivity | split; [reflexivity |]]);
      apply clamp_mono;
      (apply Qmult_le_compat_r; [| exact Hmult]);
      name_maxima; lra.
  - cbn [isAvailable nextAvailableDate].
    destruct (BloodGroup_eqb _ _);
      (destruct (dateOfBirth donor) as [dob |];
       [destruct ((ageAt now dob <? 18) || (ageAt now dob >? 65)) |]);
      cbn [List.length Nat.eqb];
      destruct (daysBetween now last >? 365);
      unfold Math_max, Math_min, num_add, num_sub, num_mul, num_lift2;
      (do 2 eexists; split; [reflexivity | split; [reflexivity |]]);
      apply clamp_mono;
      (apply Qmult_le_compat_r; [| exact Hmult]);
      name_maxima; lra.
Qed.

Lemma clamp_eq (x y : Q) :
  (x == y -> Qmax 0 (Qmin 300 x) == Qmax 0 (Qmin 300 y))%Q.
Proof.
  intros H. apply Qle_antisym; apply clamp_mono; rewrite H; apply Qle_refl.
Qed.

(** X13. The distance term is spent at the radius of the urgency level: two
    positions of a donor at or beyond it give the same score. *)
Theorem calculateMatchScore_flat_beyond_radius (now : Z) (donor : User)
  (request : BloodRequest) (c1 c2 : Coordinates) :
  (radiusKm (urgencyLevel request)
   <= calculateDistance (requestCoordinates request) c1)%Q ->
  (radiusKm (urgencyLevel request)
   <= calculateDistance (requestCoordinates request) c2)%Q ->
  exists score1 score2 : Q,
    calculateMatchScore now (relocate donor c1) request
    = Resolved (Num score1)
    /\ calculateMatchScore now (relocate donor c2) request
       = Resolved (Num score2)
    /\ (score1 == score2)%Q.
Proof.
  intros Hfar1 Hfar2.
  assert (Hspent : forall d : Q,
            (radiusKm (urgencyLevel request) <= d)%Q ->
            (Qmax 0 (50 - d / radiusKm (urgencyLevel request) * 50) == 0)%Q).
  { intros d Hd. apply Q.max_l.
    pose proof (radiusKm_pos (urgencyLevel request)) as Hpos.
    assert (H1 : (1 <= d / radiusKm (urgencyLevel request))%Q).
    { apply Qle_shift_div_l; [assumption | lra]. }
    set (x := (d / radiusKm (urgencyLevel request))%Q) in *. lra. }
  pose proof (Hspent _ Hfar1) as H1. pose proof (Hspent _ Hfar2) as H2.
  clear Hspent. unfold calculateMatchScore.
  change (checkAvailability now (relocate donor c1))
    with (checkAvailability now donor).
  change (checkAvailability now (relocate donor c2))
    with (checkAvailability now donor).
  cbn [relocate bloodGroup user_id lastDonationDate coordinates].
  destruct (isBloodCompatible (bloodGroup donor) (requestBloodGroup request)).
  2: { exists 0%Q, 0%Q. repeat split. }
  rewrite getMaxDistanceByUrgency_level, getUrgencyMultiplier_level.
  destruct (getResponseHistory_resolves (user_id donor)) as [h ->].
  cbv zeta. unfold await, toNumber. rewrite !num_div_radius.
  destruct (BloodGroup_eqb _ _);
    destruct (checkAvailability now donor) as [available next restr];
    cbn [isAvailable nextAvailableDate];
    destruct available; try destruct next as [next |];
    destruct (lastDonationDate donor) as [last |];
    try (destruct (daysBetween now last <? 90);
         [| destruct (daysBetween now last >? 365)]);
    unfold Math_max, Math_min, num_add, num_sub, num_mul, num_lift2;
    (do 2 eexists; split; [reflexivity | split; [reflexivity |]]);
    apply clamp_eq; (apply Qmult_comp; [| apply Qeq_refl]);
    repeat
      match goal with
      | |- context [Qmax 0 ?x] =>
          let t := fresh "t" in set (t := Qmax 0 x) in *; clearbody t
      end;
    lra.
Qed.

(** X5. The filter of the search and the availability verdict apply the same
    90-day rule: a donor passes the filter exactly when the verdict has no
    next available date. *)
Theorem eligibleByGap_agrees_with_checkAvailability (now : Z) (donor : User) :
  eligibleByGap now donor = true
  <-> nextAvailableDate (checkAvailability now donor) = None.
Proof.
  unfold eligibleByGap, checkAvailability.
  destruct (lastDonationDate donor) as [last |]; [| split; reflexivity].
  destruct (daysBetween now last <? 90) eqn:E; simpl.
  - apply Z.ltb_lt in E. split; [| discriminate].
    intros H. apply Z.leb_le in H. lia.
  - apply Z.ltb_ge in E. split; [reflexivity |].
    intros _. now apply Z.leb_le.
Qed.

(* ---------------------------------------------------------------- *)
(** *** More on a matching run *)

Lemma matchDonor_fields (now : Z) (request : BloodRequest) (donor : User)
  (m : DonorMatch) :
  matchDonor now request donor = Resolved m ->
  donorId m = user_id donor
  /\ matchBloodGroup m = bloodGroup donor
  /\ matchLastDonationDate m = lastDonationDate donor
  /\ distance m
     = calculateDistance (requestCoordinates request) (coordinates donor)
  /\ calculateMatchScore now donor request = Resolved (matchScore m)
  /\ availability m = checkAvailability now donor.
Proof.
  unfold matchDonor.
  destruct (calculateMatchScore now donor request) as [score | e];
    [| discriminate].
  destruct (getResponseHistory (user_id donor)) as [h | e]; [| discriminate].
  simpl. intros [= <-]. repeat split.
Qed.

Lemma matchDonors_each (now : Z) (request : BloodRequest)
  (donors : list User) (ms : list DonorMatch) :
  matchDonors now request donors = Resolved ms ->
  Forall2 (fun donor m => matchDonor now request donor = Resolved m)
    donors ms.
Proof.
  revert ms. induction donors as [| donor rest IH]; simpl; intros ms.
  - intros [= <-]. constructor.
  - destruct (matchDonor now request donor) as [m | e] eqn:Hm;
      [| discriminate].
    simpl. destruct (matchDonors now request rest) as [ms' | e];
      [| discriminate].
    simpl. intros [= <-]. constructor; [assumption | now apply IH].
Qed.

Lemma firstn_length_le_all {A : Type} (n : nat) (l : list A) :
  (List.length (firstn n l) <= List.length l)%nat.
Proof. rewrite length_firstn. apply Nat.le_min_r. Qed.

Lemma Forall2_In_r {A B : Type} (R : A -> B -> Prop) (l : list A)
  (l' : list B) (b : B) :
  Forall2 R l l' -> In b l' -> exists a, In a l /\ R a b.
Proof.
  induction 1 as [| a b' l l' Hab _ IH]; [contradiction |].
  intros [-> | Hin].
  - exists a. split; [now left | assumption].
  - destruct (IH Hin) as (a' & Ha' & HR). exists a'. split; [now right | assumption].
Qed.

Lemma findOptimalDonors_unfold (now : Z) (request : BloodRequest)
  (qualifying : list User) :
  findCompatibleDonors now (criteriaOf request) = Resolved qualifying ->
  exists ms,
    matchDonors now request qualifying = Resolved ms
    /\ findOptimalDonors now request
       = Resolved
           (firstn (topN (urgencyLevel request))
              (sortWith byScoreDescending ms)).
Proof.
  intros Hq. unfold findOptimalDonors. cbv zeta. rewrite Hq.
  destruct (matchDonors_resolves now request qualifying)
    as (ms & Hms & _).
  unfold await at 1. rewrite Hms. unfold await, tryCatch.
  rewrite sliceTo_topN. now exists ms.
Qed.

(** Every match of a run is the match of a document the store delivered
    among its first 100, one that passes the 90-day filter. *)
Lemma findOptimalDonors_members (now : Z) (request : BloodRequest)
  (result : list DonorMatch) (m : DonorMatch) :
  findOptimalDonors now request = Resolved result ->
  In m result ->
  exists found donor,
    userCollection_find (queryOf (criteriaOf request)) = Resolved found
    /\ In donor (firstn 100 found)
    /\ eligibleByGap now donor = true
    /\ matchDonor now request donor = Resolved m.
Proof.
  intros Hres Hin.
  destruct (userCollection_find (queryOf (criteriaOf request)))
    as [found | e] eqn:Hfound.
  - pose proof (findCompatibleDonors_found now (criteriaOf request) found
                  Hfound) as Hq.
    destruct (findOptimalDonors_unfold now request _ Hq) as (ms & Hms & Hrun).
    rewrite Hrun in Hres. injection Hres as <-.
    apply In_firstn in Hin.
    apply (Permutation_in _ (Permutation_sym (sortWith_perm _ ms))) in Hin.
    destruct (Forall2_In_r _ _ _ _ (matchDonors_each _ _ _ _ Hms) Hin)
      as (donor & Hdonor & Hmatch).
    apply filter_In in Hdonor. destruct Hdonor as [Hdelivered Hgap].
    now exists found, donor.
  - pose proof (findCompatibleDonors_failed now (criteriaOf request) e Hfound)
      as Hq.
    rewrite (findOptimalDonors_swallows now request e Hq) in Hres.
    injection Hres as <-. contradiction.
Qed.

(** X14. A run returns no donor the store did not deliver: each match carries
    the identity, blood group, last donation, distance, score and
    availability of one of the first 100 documents delivered, and there are
    no more matches than documents. *)
Theorem findOptimalDonors_matches_delivered (now : Z) (request : BloodRequest)
  (found : list User) (result : list DonorMatch) :
  userCollection_find (queryOf (criteriaOf request)) = Resolved found ->
  findOptimalDonors now request = Resolved result ->
  (List.length result <= List.length found)%nat
  /\ forall m,
      In m result ->
      exists donor,
        In donor (firstn 100 found)
        /\ donorId m = user_id donor
        /\ matchBloodGroup m = bloodGroup donor
        /\ matchLastDonationDate m = lastDonationDate donor
        /\ distance m
           = calculateDistance (requestCoordinates request)
               (coordinates donor)
        /\ calculateMatchScore now donor request = Resolved (matchScore m)
        /\ availability m = checkAvailability now donor.
Proof.
  intros Hfound Hres. split.
  - pose proof (findCompatibleDonors_found now (criteriaOf request) found
                  Hfound) as Hq.
    destruct (findOptimalDonors_unfold now request _ Hq) as (ms & Hms & Hrun).
    rewrite Hrun in Hres. injection Hres as <-.
    eapply Nat.le_trans; [apply firstn_length_le_all |].
    rewrite sortWith_length.
    apply matchDonors_each, Forall2_length in Hms. rewrite <- Hms.
    eapply Nat.le_trans; [apply filter_length_le |].
    apply firstn_length_le_all.
  - intros m Hin.
    destruct (findOptimalDonors_members now request result m Hres Hin)
      as (found' & donor & Hfound' & Hdelivered & _ & Hmatch).
    rewrite Hfound in Hfound'. injection Hfound' as <-.
    exists donor. split; [assumption |].
    now apply matchDonor_fields.
Qed.

(** X15. No match of a run is waiting out the 90 days: its availability has no
    next available date, and the only restriction it can carry is the one
    on age. *)
Theorem findOptimalDonors_no_waiting_match (now : Z) (request : BloodRequest)
  (result : list DonorMatch) :
  findOptimalDonors now request = Resolved result ->
  Forall
    (fun m =>
       nextAvailableDate (availability m) = None
       /\ (restrictions (availability m) = None
           \/ restrictions (availability m) = Some [ageRestriction]))
    result.
Proof.
  intros Hres. apply Forall_forall. intros m Hin.
  destruct (findOptimalDonors_members now request result m Hres Hin)
    as (found & donor & _ & _ & Hgap & Hmatch).
  apply matchDonor_fields in Hmatch.
  destruct Hmatch as (_ & _ & _ & _ & _ & ->).
  apply eligibleByGap_spec in Hgap.
  rewrite (checkAvailability_not_recent now donor Hgap).
  destruct (dateOfBirth donor) as [dob |];
    [destruct ((ageAt now dob <? 18) || (ageAt now dob >? 65)) |];
    simpl; auto.
Qed.

(** X16. In the result of a run a score of 0 marks an incompatible donor: a
    match is either of a compatible blood group, with a score of at least
    50, or has score exactly 0. *)
Theorem findOptimalDonors_zero_marks_incompatible (now : Z)
  (request : BloodRequest) (result : list DonorMatch) :
  findOptimalDonors now request = Resolved result ->
  Forall
    (fun m =>
       (isBloodCompatible (matchBloodGroup m) (requestBloodGroup request)
        = true
        /\ exists score, matchScore m = Num score /\ (50 <= score)%Q)
       \/ (isBloodCompatible (matchBloodGroup m) (requestBloodGroup request)
           = false
           /\ matchScore m = Num 0))
    result.
Proof.
  intros Hres. apply Forall_forall. intros m Hin.
  destruct (findOptimalDonors_members now request result m Hres Hin)
    as (found & donor & _ & _ & _ & Hmatch).
  apply matchDonor_fields in Hmatch.
  destruct Hmatch as (_ & -> & _ & _ & Hscore & _).
  destruct (isBloodCompatible (bloodGroup donor) (requestBloodGroup request))
    eqn:Hcompat.
  - left. split; [reflexivity |].
    destruct (calculateMatchScore_compatible_at_least_50 now donor request
                Hcompat) as (score & Hvalue & Hfifty).
    exists score. split; [congruence | assumption].
  - right. split; [reflexivity |].
    unfold calculateMatchScore in Hscore. rewrite Hcompat in Hscore.
    congruence.
Qed.

Lemma StronglySorted_firstn_skipn {A : Type} (R : A -> A -> Prop)
  (l : list A) (n : nat) (a b : A) :
  StronglySorted R l -> In a (firstn n l) -> In b (skipn n l) -> R a b.
Proof.
  intros Hsorted. revert n.
  induction Hsorted as [| x l Hl IH Hx]; intros n Ha Hb.
  - rewrite firstn_nil in Ha. contradiction.
  - destruct n as [| n]; [contradiction |]. simpl in Ha, Hb.
    destruct Ha as [<- | Ha].
    + apply (proj1 (Forall_forall _ _) Hx).
      rewrite <- (firstn_skipn n l). apply in_or_app. now right.
    + now apply IH with n.
Qed.

(** X17. The cut keeps the best: every match left out of the result scores no
    more than every match kept. *)
Theorem findOptimalDonors_keeps_the_best (now : Z) (request : BloodRequest)
  (qualifying : list User) :
  findCompatibleDonors now (criteriaOf request) = Resolved qualifying ->
  exists ranked,
    Permutation (map donorId ranked) (map user_id qualifying)
    /\ findOptimalDonors now request
       = Resolved (firstn (topN (urgencyLevel request)) ranked)
    /\ forall kept dropped,
        In kept (firstn (topN (urgencyLevel request)) ranked) ->
        In dropped (skipn (topN (urgencyLevel request)) ranked) ->
        byScore kept dropped.
Proof.
  intros Hq.
  destruct (matchDonors_resolves now request qualifying)
    as (ms & Hms & Hids & Hnum).
  destruct (findOptimalDonors_unfold now request qualifying Hq)
    as (ms' & Hms' & Hrun).
  rewrite Hms in Hms'. injection Hms' as <-.
  exists (sortWith byScoreDescending ms). split; [| split].
  - rewrite <- Hids. apply Permutation_map, Permutation_sym, sortWith_perm.
  - exact Hrun.
  - intros kept dropped Hkept Hdropped.
    eapply StronglySorted_firstn_skipn; [| exact Hkept | exact Hdropped].
    apply sortWith_descending; [reflexivity | assumption].
Qed.

(* ---------------------------------------------------------------- *)
(** *** More on radius expansion *)

Lemma notifyMatchedDonors_resolves (request : BloodRequest)
  (matches : list DonorMatch) :
  notifyMatchedDonors request matches = Resolved tt.
Proof.
  unfold notifyMatchedDonors, tryCatch. cbv zeta.
  destruct (urgencyLevel request);
    match goal with
    | |- match ?p with _ => _ end = _ => destruct p as [[] | e]; reflexivity
    end.
Qed.

(** X18. Radius expansion never fails. It returns the empty list when the
    request cannot be read or does not exist, and when the write of the
    matches fails; otherwise it returns the matches of [findOptimalDonors],
    whatever becomes of the notifications. *)
Theorem expandSearchRadius_outcomes (now : Z) (requestId : string)
  (newRadius : Q) :
  (exists matches,
      expandSearchRadius now requestId newRadius = Resolved matches)
  /\ (requestCollection_findOne requestId = Resolved None ->
      expandSearchRadius now requestId newRadius = Resolved [])
  /\ (forall e,
         requestCollection_findOne requestId = Rejected e ->
         expandSearchRadius now requestId newRadius = Resolved [])
  /\ (forall request matches,
         requestCollection_findOne requestId = Resolved (Some request) ->
         findOptimalDonors now request = Resolved matches ->
         (forall e,
             requestCollection_updateOne requestId matches now = Rejected e ->
             expandSearchRadius now requestId newRadius = Resolved [])
         /\ (requestCollection_updateOne requestId matches now = Resolved tt ->
             expandSearchRadius now requestId newRadius = Resolved matches)).
Proof.
  assert (Hfound : forall request matches,
    requestCollection_findOne requestId = Resolved (Some request) ->
    findOptimalDonors now request = Resolved matches ->
    (forall e,
        requestCollection_updateOne requestId matches now = Rejected e ->
        expandSearchRadius now requestId newRadius = Resolved [])
    /\ (requestCollection_updateOne requestId matches now = Resolved tt ->
        expandSearchRadius now requestId newRadius = Resolved matches)).
  { intros request matches Hone Hrun. unfold expandSearchRadius.
    rewrite Hone. cbv zeta. cbn [await]. rewrite Hrun. cbn [await].
    split.
    - intros e ->. reflexivity.
    - intros ->. cbn [await].
      rewrite notifyMatchedDonors_resolves. reflexivity. }
  split; [| split; [| split]].
  - destruct (requestCollection_findOne requestId) as [[request |] | e]
      eqn:Hone.
    + destruct (findOptimalDonors_resolves now request) as [matches Hrun].
      destruct (Hfound request matches eq_refl Hrun) as [Hfail Hok].
      destruct (requestCollection_updateOne requestId matches now)
        as [[] | e] eqn:Hupdate.
      * exists matches. now apply Hok.
      * exists []. now apply Hfail with e.
    + exists []. unfold expandSearchRadius. now rewrite Hone.
    + exists []. unfold expandSearchRadius. now rewrite Hone.
  - intros Hone. unfold expandSearchRadius. now rewrite Hone.
  - intros e Hone. unfold expandSearchRadius. now rewrite Hone.
  - exact Hfound.
Qed.

(* ---------------------------------------------------------------- *)
(** *** Matching metrics *)

(** [db.collection("request").find(query).toArray()]. *)
Variable requestCollection_findRecent :
  RecentMatchesQuery -> Promise (list RequestDocument).

Definition getMatchingMetrics (now : Z) : Promise MatchingMetrics :=
  tryCatch
    (recentMatches <-
       requestCollection_findRecent
         {| createdAtGte := now - 30 * 24 * 60 * 60 * 1000 |} ;;
     let totalMatches :=
       fold_left
         (fun sum req => sum + Z.of_nat (List.length (matchedDonors req)))
         recentMatches 0 in
     let averageDistance :=
       if Nat.ltb 0 (List.length recentMatches)
       then
         num_div
           (fold_left
              (fun sum req =>
                 let avgDist :=
                   num_div
                     (Num (fold_left (fun s d => (s + distance d)%Q)
                             (matchedDonors req) 0%Q))
                     (Num (inject_Z
                             (Z.of_nat (List.length (matchedDonors req))))) in
                 num_add sum avgDist)
              recentMatches (Num 0))
           (Num (inject_Z (Z.of_nat (List.length recentMatches))))
       else Num 0 in
     let successfulRequests :=
       List.length
         (filter
            (fun req =>
               match documentStatus req with
               | RequestStatus.COMPLETED | RequestStatus.VERIFIED => true
               | _ => false
               end)
            recentMatches) in
     let successRate : Q :=
       if Nat.ltb 0 (List.length recentMatches)
       then (inject_Z (Z.of_nat successfulRequests)
             / inject_Z (Z.of_nat (List.length recentMatches)))%Q
       else 0%Q in
     Resolved
       {| totalMatches := totalMatches;
          averageDistance := averageDistance;
          metricsAverageResponseTime := 45;
          successRate := successRate;
          lastUpdated := now |})
    (fun error =>
       Resolved
         {| totalMatches := 0;
            averageDistance := Num 0;
            metricsAverageResponseTime := 0;
            successRate := 0;
            lastUpdated := now |}).


Lemma fold_total_nonneg (l : list RequestDocument) (acc : Z) :
  0 <= acc ->
  0 <= fold_left
         (fun sum req => sum + Z.of_nat (List.length (matchedDonors req)))
         l acc.
Proof.
  revert acc. induction l as [| req l IH]; simpl; intros acc Hacc;
    [assumption |].
  apply IH. lia.
Qed.


Lemma positive_length_Q {A : Type} (l : list A) :
  l <> [] -> (0 < inject_Z (Z.of_nat (List.length l)))%Q.
Proof.
  intros Hne. change 0%Q with (inject_Z 0). rewrite <- Zlt_Qlt.
  destruct l; [congruence | simpl; lia].
Qed.





(** X19. The metrics are never a failure. The success rate lies between 0 and
    1, the total is not negative, and a failed read gives the all-zero
    metrics, with average response time 0 instead of the 45 of a
    successful read. *)
Theorem getMatchingMetrics_invariants (now : Z) :
  (exists metrics,
      getMatchingMetrics now = Resolved metrics
      /\ (0 <= successRate metrics /\ successRate metrics <= 1)%Q
      /\ 0 <= totalMatches metrics
      /\ lastUpdated metrics = now)
  /\ (forall e,
         requestCollection_findRecent
           {| createdAtGte := now - 30 * msPerDay |} = Rejected e ->
         getMatchingMetrics now
         = Resolved
             {| totalMatches := 0;
                averageDistance := Num 0;
                metricsAverageResponseTime := 0;
                successRate := 0;
                lastUpdated := now |})
  /\ (forall recentMatches,
         requestCollection_findRecent
           {| createdAtGte := now - 30 * msPerDay |} = Resolved recentMatches ->
         exists metrics,
           getMatchingMetrics now = Resolved metrics
           /\ metricsAverageResponseTime metrics = 45%Q).
Proof.
  assert (Hsince : now - 30 * msPerDay = now - 30 * 24 * 60 * 60 * 1000)
    by reflexivity.
  split; [| split].
  - unfold getMatchingMetrics.
    destruct (requestCollection_findRecent _) as [recentMatches | e]; simpl.
    + eexists. split; [reflexivity |]. cbn [successRate totalMatches lastUpdated].
      split; [| split; [apply fold_total_nonneg; lia | reflexivity]].
      destruct recentMatches as [| req rest]; [split; discriminate |].
      set (l := req :: rest).
      assert (Hne : l <> []) by discriminate.
      pose proof (positive_length_Q l Hne) as Hpos.
      cbn [Nat.ltb Nat.leb List.length]. fold (List.length l).
      replace (if (1 <=? S (List.length rest))%nat then _ else _)
        with (inject_Z
                (Z.of_nat
                   (List.length
                      (filter
                         (fun req0 =>
                            match documentStatus req0 with
                            | RequestStatus.COMPLETED
                            | RequestStatus.VERIFIED => true
                            | _ => false
                            end) l)))
              / inject_Z (Z.of_nat (List.length l)))%Q by reflexivity.
      split.
      * apply Qle_shift_div_l; [assumption |].
        rewrite Qmult_0_l. change 0%Q with (inject_Z 0).
        rewrite <- Zle_Qle. lia.
      * apply Qle_shift_div_r; [assumption |].
        rewrite Qmult_1_l. rewrite <- Zle_Qle. apply count_le_length.
    + eexists. split; [reflexivity |]. simpl.
      repeat split; try discriminate; lia.
  - intros e Hread. unfold getMatchingMetrics. rewrite <- Hsince, Hread.
    reflexivity.
  - intros recentMatches Hread. unfold getMatchingMetrics.
    rewrite <- Hsince, Hread. simpl. eexists. split; reflexivity.
Qed.



End Engine.

(* ================================================================== *)
(** ** A concrete deployment, to run the engine on

    Stand-ins for the collaborators: a flat grid whose unit is one
    kilometre in place of geolib, and an in-memory store that answers the
    query of [findCompatibleDonors] the way the database does. *)

Definition gridDistance (p q : GeoPoint) : Z :=
  Qfloor ((Qabs (latitude p - latitude q) + Qabs (longitude p - longitude q))
          * 1000).

Definition UserRole_eqb (a b : UserRole) : bool :=
  match a, b with
  | DONOR, DONOR | VOLUNTEER, VOLUNTEER | ADMIN, ADMIN => true
  | _, _ => false
  end.

Definition UserStatus_eqb (a b : UserStatus) : bool :=
  match a, b with
  | ACTIVE, ACTIVE | BLOCKED, BLOCKED | PENDING, PENDING => true
  | _, _ => false
  end.

Definition metresFrom (centre : Coordinates) (u : User) : Z :=
  gridDistance
    {| latitude := snd centre; longitude := fst centre |}
    {| latitude := snd (coordinates u); longitude := fst (coordinates u) |}.

(** [$in], [$nin] and equality; then [$near] with [$maxDistance], nearest
    first. *)
Definition storeFind (docs : list User) (q : UserQuery) : Promise (list User) :=
  let selected :=
    filter
      (fun u =>
         existsb (UserRole_eqb (role u)) (queryRoles q)
         && UserStatus_eqb (status u) (queryStatus q)
         && includes (queryBloodGroups q) (bloodGroup u)
         && match queryExcludedIds q with
            | Some ids => negb (existsb (String.eqb (user_id u)) ids)
            | None => true
            end)
      docs in
  match queryNear q with
  | None => Resolved selected
  | Some (centre, Num maxMetres) =>
      Resolved
        (sortWith
           (fun a b => Num (inject_Z (metresFrom centre a - metresFrom centre b)))
           (filter
              (fun u => Qle_bool (inject_Z (metresFrom centre u)) maxMetres)
              selected))
  | Some (_, NaN) => Rejected "$maxDistance must be a number"
  end.

Definition quietLog (q : ActivityQuery) : Promise (list ActivityLogEntry) :=
  Resolved [].

Definition brokenLog (q : ActivityQuery) : Promise (list ActivityLogEntry) :=
  Rejected "activity log unavailable".

Definition brokenStore (q : UserQuery) : Promise (list User) :=
  Rejected "connection lost".

(** 1 June 2024, 00:00 UTC, and a number of days before it. *)
Definition demoNow : Z := 1717200000000.
Definition daysAgo (n : Z) : Z := demoNow - n * msPerDay.

Definition demoDonor (id : string) (g : BloodGroup) (c : Coordinates)
  (last born : option Z) : User :=
  {| user_id := id; name := "Donor " ++ id; email := id ++ "@example.org";
     phone := None; bloodGroup := g; dateOfBirth := born; coordinates := c;
     role := DONOR; status := ACTIVE; lastDonationDate := last |}.

Definition demoRequest (g : BloodGroup) (u : UrgencyLevel) : BloodRequest :=
  {| request_id := "665a00000000000000000001";
     requestBloodGroup := g;
     urgencyLevel := u;
     requestCoordinates := (0, 0)%Q;
     district := "Dhaka";
     requesterId := "665a00000000000000000002" |}.

(** One O- donor 30 km from the request. *)
Definition farDonor : User :=
  demoDonor "far" O_NEGATIVE (30, 0)%Q None None.

Definition oneRequest (requestId : string) : Promise (option BloodRequest) :=
  if String.eqb requestId "665a00000000000000000001"
  then Resolved (Some (demoRequest O_NEGATIVE LOW))
  else Resolved None.

Definition acceptUpdate (requestId : string) (matches : list DonorMatch)
  (updatedAt : Z) : Promise unit := Resolved tt.
Definition acceptAlert (requestId : string) (ids : list string) : Promise unit :=
  Resolved tt.
Definition acceptBulk (n : BulkNotification) : Promise unit := Resolved tt.

(** The request of [oneRequest] is of low urgency: 15 km. The donor is 30 km
    away, inside the 50 km the caller asks for. *)
Definition theRequestId : string := "665a00000000000000000001".

(** C2, at a failing input. Radius expansion is meant to search again with
    the radius the caller supplies. With a compatible donor 30 km from a
    low-urgency request, expanding to 50 km still searches within the 15 km
    of the urgency level and returns no match, where the search with the
    supplied radius returns the donor. *)
Theorem expandSearchRadius_ignores_newRadius :
  expandSearchRadius gridDistance (storeFind [farDonor]) quietLog oneRequest
    acceptUpdate acceptAlert acceptBulk demoNow theRequestId 50
  = Resolved []
  /\ exists donorMatch,
      expandSearch_spec gridDistance (storeFind [farDonor]) quietLog demoNow
        (demoRequest O_NEGATIVE LOW) 50
      = Resolved [donorMatch]
      /\ donorId donorMatch = "far".
Proof.
  split.
  - vm_compute. reflexivity.
  - eexists. split; vm_compute; reflexivity.
Qed.

(** C5 as it is stated, for the read of the donor population: a failure of
    the read is the failure of the matching run. *)
Definition populationFailureSurfaces
  (getDistance : GeoPoint -> GeoPoint -> Z)
  (userCollection_find : UserQuery -> Promise (list User))
  (activityLog_find : ActivityQuery -> Promise (list ActivityLogEntry))
  : Prop :=
  forall (now : Z) (request : BloodRequest) (e : JSError),
    userCollection_find (queryOf (criteriaOf request)) = Rejected e ->
    findOptimalDonors getDistance userCollection_find activityLog_find
      now request
    = Rejected e.

(** With a store that cannot be read, the run resolves with the empty list
    instead of failing. *)
Lemma population_failure_not_surfaced :
  ~ populationFailureSurfaces gridDistance brokenStore quietLog.
Proof.
  intros H.
  specialize (H demoNow (demoRequest O_NEGATIVE CRITICAL) "connection lost"
                eq_refl).
  vm_compute in H. discriminate H.
Qed.

Lemma read_failures_are_caught_witness :
  findOptimalDonors gridDistance brokenStore brokenLog demoNow
    (demoRequest O_NEGATIVE CRITICAL)
  = Resolved []
  /\ getResponseHistory brokenLog "far" = Resolved defaultResponseHistory.
Proof.
  destruct (read_failures_are_caught gridDistance brokenStore brokenLog
              demoNow (demoRequest O_NEGATIVE CRITICAL)) as (Hstore & Hlog & _).
  split.
  - apply (Hstore "connection lost"). reflexivity.
  - apply (Hlog "far" "activity log unavailable"). left. reflexivity.
Defined.

(** An O+ donor does not serve an O- request: score 0. *)
Lemma calculateMatchScore_bounds_witness :
  calculateMatchScore gridDistance quietLog demoNow
    (demoDonor "near" O_POSITIVE (3, 0)%Q None None)
    (demoRequest O_NEGATIVE CRITICAL)
  = Resolved (Num 0).
Proof.
  apply (proj2 (calculateMatchScore_bounds gridDistance quietLog demoNow
                  (demoDonor "near" O_POSITIVE (3, 0)%Q None None)
                  (demoRequest O_NEGATIVE CRITICAL))).
  reflexivity.
Defined.

(** A donor who gave 10 days ago; one aged 70 who gave 200 days ago; one
    aged 30 who gave 91 days ago. *)
Definition recentDonor : User :=
  demoDonor "recent" O_NEGATIVE (1, 0)%Q (Some (daysAgo 10)) None.
Definition elderDonor : User :=
  demoDonor "elder" O_NEGATIVE (2, 0)%Q (Some (daysAgo 200))
    (Some (daysAgo (70 * 365 + 20))).
Definition readyDonor : User :=
  demoDonor "ready" O_NEGATIVE (4, 0)%Q (Some (daysAgo 91))
    (Some (daysAgo (30 * 365 + 100))).

Lemma checkAvailability_rules_witness :
  checkAvailability demoNow recentDonor
  = {| isAvailable := false;
       nextAvailableDate := Some (daysAgo 10 + 90 * msPerDay);
       restrictions := Some [waitRestriction] |}
  /\ checkAvailability demoNow elderDonor
     = {| isAvailable := false;
          nextAvailableDate := None;
          restrictions := Some [ageRestriction] |}
  /\ checkAvailability demoNow readyDonor
     = {| isAvailable := true;
          nextAvailableDate := None;
          restrictions := None |}.
Proof.
  split; [| split].
  - apply (proj1 (checkAvailability_rules demoNow recentDonor) (daysAgo 10)).
    + reflexivity.
    + vm_compute. reflexivity.
  - apply (proj1 (proj2 (checkAvailability_rules demoNow elderDonor))).
    + intros (last & Hlast & Hlt). injection Hlast as <-.
      vm_compute in Hlt. discriminate Hlt.
    + exists (daysAgo (70 * 365 + 20)). split; [reflexivity |].
      right. vm_compute. reflexivity.
  - apply (proj2 (proj2 (checkAvailability_rules demoNow readyDonor))).
    + intros (last & Hlast & Hlt). injection Hlast as <-.
      vm_compute in Hlt. discriminate Hlt.
    + intros (dob & Hdob & Hage). injection Hdob as <-.
      vm_compute in Hage. destruct Hage as [H | H]; discriminate H.
Defined.

(** Fifty O- donors, one per kilometre, all inside the 100 km of a critical
    request. *)
Definition crowd : list User :=
  map
    (fun i : nat =>
       demoDonor (String (ascii_of_nat (48 + i)) "") O_NEGATIVE
         (inject_Z (Z.of_nat i), 0%Q) None None)
    (seq 0 50).

Lemma findOptimalDonors_sorted_topN_witness :
  exists result,
    findOptimalDonors gridDistance (storeFind crowd) quietLog demoNow
      (demoRequest O_NEGATIVE CRITICAL)
    = Resolved result
    /\ List.length result = 20%nat.
Proof.
  destruct (findOptimalDonors_sorted_topN gridDistance (storeFind crowd)
              quietLog demoNow (demoRequest O_NEGATIVE CRITICAL))
    as (_ & result & Hres & _ & _ & Hqualifying).
  exists result. split; [exact Hres |].
  edestruct Hqualifying as (_ & _ & Hfifty).
  - vm_compute. reflexivity.
  - apply Hfifty; reflexivity.
Defined.

Lemma findCompatibleDonors_radius_cap_gap_witness :
  exists candidates,
    findCompatibleDonors (storeFind [recentDonor; elderDonor; readyDonor])
      demoNow (criteriaOf (demoRequest O_NEGATIVE CRITICAL))
    = Resolved candidates
    /\ candidates = [elderDonor; readyDonor].
Proof.
  destruct (findCompatibleDonors_radius_cap_gap
              (storeFind [recentDonor; elderDonor; readyDonor]) demoNow
              (demoRequest O_NEGATIVE CRITICAL))
    as (_ & _ & _ & Hsearch).
  destruct (Hsearch (criteriaOf (demoRequest O_NEGATIVE CRITICAL))
              [recentDonor; elderDonor; readyDonor])
    as (candidates & Hfound & Hvalue & _).
  - vm_compute. reflexivity.
  - exists candidates. split; [exact Hfound |].
    rewrite Hvalue. vm_compute. reflexivity.
Defined.

Lemma calculateMatchScore_monotone_in_distance_witness :
  exists scoreNear scoreFar : Q,
    calculateMatchScore gridDistance quietLog demoNow
      (relocate readyDonor (5, 0)%Q) (demoRequest O_NEGATIVE CRITICAL)
    = Resolved (Num scoreNear)
    /\ calculateMatchScore gridDistance quietLog demoNow
         (relocate readyDonor (20, 0)%Q) (demoRequest O_NEGATIVE CRITICAL)
       = Resolved (Num scoreFar)
    /\ (scoreFar <= scoreNear)%Q.
Proof.
  apply (calculateMatchScore_monotone_in_distance gridDistance quietLog
           demoNow readyDonor (demoRequest O_NEGATIVE CRITICAL)
           (5, 0)%Q (20, 0)%Q).
  apply Qle_bool_iff. vm_compute. reflexivity.
Defined.

(* ------------------------------------------------------------------ *)
(** *** Runs of the engine *)

(** The cap precedes the filter: with 100 recent donors nearest to the
    request and an eligible one behind them, the search returns nobody. *)
Definition queue : list User :=
  map
    (fun i : nat =>
       demoDonor (String (ascii_of_nat (48 + i)) "") O_NEGATIVE
         (inject_Z (Z.of_nat i) / 10, 0)%Q (Some (daysAgo 10)) None)
    (seq 0 100)
  ++ [demoDonor "behind" O_NEGATIVE (20, 0)%Q None None].

Example findCompatibleDonors_caps_before_filtering :
  findCompatibleDonors (storeFind queue) demoNow
    (criteriaOf (demoRequest O_NEGATIVE CRITICAL))
  = Resolved [].
Proof. vm_compute. reflexivity. Qed.

(** The scenario of the specification: an O- request of critical urgency,
    an O- donor 5 km away without readable history and an O+ donor 3 km
    away. One match, the O- donor, with
    (100 + 20 + 47.5 + 30 + 10) * 1.5 clamped to 300. *)
Example end_to_end_scenario :
  exists donorMatch,
    findOptimalDonors gridDistance
      (storeFind [demoDonor "o-neg" O_NEGATIVE (5, 0)%Q None None;
                  demoDonor "o-pos" O_POSITIVE (3, 0)%Q None None])
      brokenLog demoNow (demoRequest O_NEGATIVE CRITICAL)
    = Resolved [donorMatch]
    /\ donorId donorMatch = "o-neg"
    /\ matchScore donorMatch = Num 300.
Proof. eexists. repeat split; vm_compute; reflexivity. Qed.

(** A donor who gave 91 days ago, aged 30, at 4 km of a medium request:
    (100 + 20 + 42 + 30 + 0) * 1.1 = 211.2. *)
Example score_of_readyDonor :
  exists score,
    calculateMatchScore gridDistance quietLog demoNow readyDonor
      (demoRequest O_NEGATIVE MEDIUM)
    = Resolved (Num score)
    /\ (score == 2112 # 10)%Q.
Proof. eexists. split; [vm_compute; reflexivity | reflexivity]. Qed.

(* ------------------------------------------------------------------ *)
(** *** Instances of the further properties *)

Lemma isBloodCompatible_partial_order_witness :
  isBloodCompatible O_NEGATIVE AB_POSITIVE = true
  /\ A_NEGATIVE = A_NEGATIVE.
Proof.
  destruct isBloodCompatible_partial_order as (_ & Htrans & Hanti). split.
  - apply (Htrans O_NEGATIVE A_NEGATIVE AB_POSITIVE); reflexivity.
  - apply (Hanti A_NEGATIVE A_NEGATIVE); reflexivity.
Defined.

Lemma getCompatibleBloodGroups_shape_witness :
  incl (getCompatibleBloodGroups A_NEGATIVE)
    (getCompatibleBloodGroups AB_POSITIVE).
Proof.
  apply (proj2 (proj2 (proj2 (getCompatibleBloodGroups_shape A_NEGATIVE)))
           AB_POSITIVE).
  reflexivity.
Defined.

Lemma checkAvailability_consistent_witness :
  demoNow < daysAgo 10 + 90 * msPerDay
  /\ isAvailable (checkAvailability demoNow recentDonor) = false
  /\ restrictions (checkAvailability demoNow recentDonor)
     = Some [waitRestriction]
  /\ lastDonationDate recentDonor
     = Some (daysAgo 10 + 90 * msPerDay - 90 * msPerDay).
Proof.
  apply (proj2 (checkAvailability_consistent demoNow recentDonor)
           (daysAgo 10 + 90 * msPerDay)).
  reflexivity.
Defined.

Lemma checkAvailability_age_window_witness :
  isAvailable (checkAvailability demoNow readyDonor) = true
  <-> 18 * msPerYear <= demoNow - daysAgo (30 * 365 + 100) < 66 * msPerYear.
Proof.
  apply (checkAvailability_age_window demoNow readyDonor
           (daysAgo (30 * 365 + 100))).
  - reflexivity.
  - intros (last & Hlast & Hlt). injection Hlast as <-.
    vm_compute in Hlt. discriminate Hlt.
Defined.

(** A log whose only response was stored without [details]. *)
Definition strayEntry : ActivityLogEntry :=
  {| entryUserId := "far"; action := "notification_responded";
     details := None |}.

Definition strayLog (q : ActivityQuery) : Promise (list ActivityLogEntry) :=
  Resolved [strayEntry].

Lemma getResponseHistory_malformed_entry_witness :
  getResponseHistory strayLog "far" = Resolved defaultResponseHistory.
Proof.
  apply (getResponseHistory_malformed_entry strayLog "far" [strayEntry]
           strayEntry).
  - reflexivity.
  - simpl. left. reflexivity.
  - reflexivity.
Defined.

Lemma getResponseHistory_no_responses_witness :
  exists history,
    getResponseHistory quietLog "far" = Resolved history
    /\ totalRequests history = Z.max 1 (Z.of_nat (List.length (@nil ActivityLogEntry)))
    /\ (responseRate history == 0)%Q
    /\ (completionRate history == 0)%Q
    /\ (averageResponseTime history == 0)%Q.
Proof.
  apply (getResponseHistory_no_responses quietLog "far" []); reflexivity.
Defined.

Lemma calculateMatchScore_zero_iff_incompatible_witness :
  exists score : Q,
    calculateMatchScore gridDistance quietLog demoNow farDonor
      (demoRequest O_NEGATIVE LOW)
    = Resolved (Num score)
    /\ (50 <= score)%Q.
Proof.
  destruct (calculateMatchScore_zero_iff_incompatible gridDistance quietLog
              demoNow farDonor (demoRequest O_NEGATIVE LOW))
    as (score & Hscore & Hfifty & _).
  exists score. split; [exact Hscore |]. apply Hfifty. reflexivity.
Defined.

Lemma calculateMatchScore_monotone_in_urgency_witness :
  exists scoreLow scoreHigh : Q,
    calculateMatchScore gridDistance quietLog demoNow farDonor
      (withUrgency (demoRequest O_NEGATIVE LOW) LOW)
    = Resolved (Num scoreLow)
    /\ calculateMatchScore gridDistance quietLog demoNow farDonor
         (withUrgency (demoRequest O_NEGATIVE LOW) CRITICAL)
       = Resolved (Num scoreHigh)
    /\ (scoreLow <= scoreHigh)%Q.
Proof.
  apply (calculateMatchScore_monotone_in_urgency gridDistance quietLog
           demoNow farDonor (demoRequest O_NEGATIVE LOW) LOW CRITICAL).
  - simpl. lia.
  - apply Qle_bool_iff. vm_compute. reflexivity.
Defined.

Lemma calculateMatchScore_flat_beyond_radius_witness :
  exists score1 score2 : Q,
    calculateMatchScore gridDistance quietLog demoNow
      (relocate farDonor (20, 0)%Q) (demoRequest O_NEGATIVE LOW)
    = Resolved (Num score1)
    /\ calculateMatchScore gridDistance quietLog demoNow
         (relocate farDonor (40, 0)%Q) (demoRequest O_NEGATIVE LOW)
       = Resolved (Num score2)
    /\ (score1 == score2)%Q.
Proof.
  apply (calculateMatchScore_flat_beyond_radius gridDistance quietLog demoNow
           farDonor (demoRequest O_NEGATIVE LOW) (20, 0)%Q (40, 0)%Q);
    apply Qle_bool_iff; vm_compute; reflexivity.
Defined.

(** The three donors of the availability examples, in one store. *)
Definition trio : list User := [recentDonor; elderDonor; readyDonor].

Lemma trio_delivered :
  storeFind trio (queryOf (criteriaOf (demoRequest O_NEGATIVE CRITICAL)))
  = Resolved [recentDonor; elderDonor; readyDonor].
Proof. vm_compute. reflexivity. Qed.

Lemma findOptimalDonors_matches_delivered_witness :
  exists result,
    findOptimalDonors gridDistance (storeFind trio) quietLog demoNow
      (demoRequest O_NEGATIVE CRITICAL)
    = Resolved result
    /\ (List.length result <= 3)%nat.
Proof.
  destruct (findOptimalDonors_resolves gridDistance (storeFind trio) quietLog
              demoNow (demoRequest O_NEGATIVE CRITICAL)) as [result Hrun].
  exists result. split; [exact Hrun |].
  apply (proj1 (findOptimalDonors_matches_delivered gridDistance
                  (storeFind trio) quietLog demoNow
                  (demoRequest O_NEGATIVE CRITICAL)
                  [recentDonor; elderDonor; readyDonor] result
                  trio_delivered Hrun)).
Defined.

Lemma findOptimalDonors_no_waiting_match_witness :
  exists result,
    findOptimalDonors gridDistance (storeFind trio) quietLog demoNow
      (demoRequest O_NEGATIVE CRITICAL)
    = Resolved result
    /\ Forall
         (fun m =>
            nextAvailableDate (availability m) = None
            /\ (restrictions (availability m) = None
                \/ restrictions (availability m) = Some [ageRestriction]))
         result.
Proof.
  destruct (findOptimalDonors_resolves gridDistance (storeFind trio) quietLog
              demoNow (demoRequest O_NEGATIVE CRITICAL)) as [result Hrun].
  exists result. split; [exact Hrun |].
  apply (findOptimalDonors_no_waiting_match gridDistance (storeFind trio)
           quietLog demoNow (demoRequest O_NEGATIVE CRITICAL) result Hrun).
Defined.

Lemma findOptimalDonors_zero_marks_incompatible_witness :
  exists result,
    findOptimalDonors gridDistance (storeFind trio) quietLog demoNow
      (demoRequest O_NEGATIVE CRITICAL)
    = Resolved result
    /\ Forall
         (fun m =>
            (isBloodCompatible (matchBloodGroup m) O_NEGATIVE = true
             /\ exists score, matchScore m = Num score /\ (50 <= score)%Q)
            \/ (isBloodCompatible (matchBloodGroup m) O_NEGATIVE = false
                /\ matchScore m = Num 0))
         result.
Proof.
  destruct (findOptimalDonors_resolves gridDistance (storeFind trio) quietLog
              demoNow (demoRequest O_NEGATIVE CRITICAL)) as [result Hrun].
  exists result. split; [exact Hrun |].
  apply (findOptimalDonors_zero_marks_incompatible gridDistance
           (storeFind trio) quietLog demoNow
           (demoRequest O_NEGATIVE CRITICAL) result Hrun).
Defined.

Lemma crowd_qualifies :
  findCompatibleDonors (storeFind crowd) demoNow
    (criteriaOf (demoRequest O_NEGATIVE CRITICAL))
  = Resolved crowd.
Proof. vm_compute. reflexivity. Qed.

Lemma findOptimalDonors_keeps_the_best_witness :
  exists ranked,
    Permutation (map donorId ranked) (map user_id crowd)
    /\ findOptimalDonors gridDistance (storeFind crowd) quietLog demoNow
         (demoRequest O_NEGATIVE CRITICAL)
       = Resolved (firstn 20 ranked)
    /\ forall kept dropped,
        In kept (firstn 20 ranked) ->
        In dropped (skipn 20 ranked) ->
        byScore kept dropped.
Proof.
  apply (findOptimalDonors_keeps_the_best gridDistance (storeFind crowd)
           quietLog demoNow (demoRequest O_NEGATIVE CRITICAL) crowd).
  exact crowd_qualifies.
Defined.

Lemma expandSearchRadius_outcomes_witness :
  expandSearchRadius gridDistance (storeFind [farDonor]) quietLog oneRequest
    acceptUpdate acceptAlert acceptBulk demoNow "665a000000000000000000ff" 50
  = Resolved [].
Proof.
  apply (proj1 (proj2 (expandSearchRadius_outcomes gridDistance
                         (storeFind [farDonor]) quietLog oneRequest
                         acceptUpdate acceptAlert acceptBulk demoNow
                         "665a000000000000000000ff" 50))).
  reflexivity.
Defined.

(** Stored matches at given distances, and three stores of recent
    requests: one that cannot be read, one with two matched requests, one
    holding a request whose list of matches is empty. *)
Definition storedMatch (km : Q) : DonorMatch :=
  {| donorId := "far"; donorName := "Donor far";
     matchBloodGroup := O_NEGATIVE; distance := km;
     matchLastDonationDate := None;
     responseHistory := defaultResponseHistory;
     matchScore := Num 150;
     contactInfo :=
       {| contactPhone := ""; contactEmail := "far@example.org";
          preferredMethod := ByEmail |};
     availability :=
       {| isAvailable := true; nextAvailableDate := None;
          restrictions := None |} |}.

Definition firstDocument : RequestDocument :=
  {| documentStatus := RequestStatus.COMPLETED;
     matchedDonors := [storedMatch 4; storedMatch 8] |}.
Definition secondDocument : RequestDocument :=
  {| documentStatus := RequestStatus.MATCHED;
     matchedDonors := [storedMatch 12] |}.

Definition brokenRequests (q : RecentMatchesQuery)
  : Promise (list RequestDocument) := Rejected "connection lost".
Definition twoRequests (q : RecentMatchesQuery)
  : Promise (list RequestDocument) :=
  Resolved [firstDocument; secondDocument].

Lemma getMatchingMetrics_invariants_witness :
  getMatchingMetrics brokenRequests demoNow
  = Resolved
      {| totalMatches := 0;
         averageDistance := Num 0;
         metricsAverageResponseTime := 0;
         successRate := 0;
         lastUpdated := demoNow |}.
Proof.
  apply (proj1 (proj2 (getMatchingMetrics_invariants brokenRequests demoNow))
           "connection lost").
  reflexivity.
Defined.



(** The metrics of the two matched requests: three matches, mean of the
    means (4 + 8) / 2 and 12, one request out of two completed. *)
Example metrics_of_twoRequests :
  exists metrics average,
    getMatchingMetrics twoRequests demoNow = Resolved metrics
    /\ totalMatches metrics = 3
    /\ averageDistance metrics = Num average
    /\ (average == 9)%Q
    /\ (successRate metrics == 1 # 2)%Q.
Proof. do 2 eexists. repeat split; vm_compute; reflexivity. Qed.
